(** * create-fast-turbo: the template materializer and the manifest configurator

    A shallow embedding of [bin/create-fast-turbo.js].

    Conventions of the model.
    - JavaScript strings are [string]s; names and paths are ASCII.
    - An absolute, normalised POSIX path is the list of its segments
      ([/a/b] is ["a"; "b"]).  [path.join], [path.resolve] and
      [path.relative] are the lexical functions of Node's [path] module.
    - The template lives in the package's installation directory and is only
      read; the project is written below the working directory.  The model
      keeps the two as two stores: reads of the template never observe the
      writes of the run.
    - The store written to is addressed physically (see [ensureDir]): the
      model is that of a run whose destination holds no symbolic link on the
      paths it writes, as a destination that did not exist before does.
    - I/O failures are injected ([faults]).  A failing operation may have
      done part of its work: a failing write may leave a truncated file, a
      failing removal a tree that is removed in part.
    - A promise that rejects is the outcome [Threw]; recursion is bounded by
      fuel and a run that needs more is [OutOfFuel].  Paths have no maximal
      length here: where the program would end a runaway recursion through a
      cycle of directory links by a path that is too long, the model runs out
      of fuel. *)

From Stdlib Require Import String Ascii List Bool Arith Lia.
Import ListNotations.
Open Scope string_scope.
Open Scope list_scope.
Set Warnings "-register-all".

(* ------------------------------------------------------------------ *)
(** ** Strings *)

(** [s.includes(c)] for a one-character needle. *)
Fixpoint includes (s : string) (c : ascii) : bool :=
  match s with
  | EmptyString => false
  | String a s' => Ascii.eqb a c || includes s' c
  end.

(** [s.startsWith(p)]. *)
Fixpoint startsWith (s p : string) {struct p} : bool :=
  match p with
  | EmptyString => true
  | String b p' =>
      match s with
      | EmptyString => false
      | String a s' => Ascii.eqb a b && startsWith s' p'
      end
  end.

(** [s.split(sep)] for a one-character separator: always at least one piece. *)
Fixpoint split (sep : ascii) (s : string) : list string :=
  match s with
  | EmptyString => [EmptyString]
  | String a s' =>
      if Ascii.eqb a sep then EmptyString :: split sep s'
      else match split sep s' with
           | [] => [String a EmptyString]
           | piece :: rest => String a piece :: rest
           end
  end.

(** [parts.join(sep)]. *)
Fixpoint join (sep : string) (parts : list string) : string :=
  match parts with
  | [] => EmptyString
  | [p] => p
  | p :: rest => (p ++ sep ++ join sep rest)%string
  end.

(** [pattern.replace(/\*/g, ".*")]. *)
Fixpoint replace_stars (pattern : string) : string :=
  match pattern with
  | EmptyString => EmptyString
  | String a s' =>
      if Ascii.eqb a "*" then String "." (String "*" (replace_stars s'))
      else String a (replace_stars s')
  end.

(* ------------------------------------------------------------------ *)
(** ** Regular expressions: the fragment [new RegExp] receives *)

(** After [replace_stars] every ["*"] follows a ["."], so the expressions the
    program builds are sequences of [.], [.*] and literal characters, as long
    as the pattern holds no other metacharacter. *)
Inductive atom : Type :=
  | Any                 (* .   one character, not a line terminator *)
  | AnyStar             (* .*  *)
  | Lit (c : ascii).

Definition is_line_terminator (c : ascii) : bool :=
  Ascii.eqb c "010" || Ascii.eqb c "013".

Definition is_metachar (c : ascii) : bool :=
  existsb (Ascii.eqb c)
    ["\"; "^"; "$"; "*"; "+"; "?"; "("; ")"; "["; "]"; "{"; "}"; "|"; "."]%char.

(** [new RegExp(source)]; [None] is a source outside the fragment. *)
Fixpoint RegExp (source : string) : option (list atom) :=
  match source with
  | EmptyString => Some []
  | String a rest =>
      if Ascii.eqb a "." then
        match rest with
        | String "*" rest' => option_map (cons AnyStar) (RegExp rest')
        | _ => option_map (cons Any) (RegExp rest)
        end
      else if is_metachar a then None
      else option_map (cons (Lit a)) (RegExp rest)
  end.

(** Does a prefix of [s] match the sequence [r]? *)
Fixpoint match_here (r : list atom) (s : string) : bool :=
  match r with
  | [] => true
  | Any :: r' =>
      match s with
      | String c s' => negb (is_line_terminator c) && match_here r' s'
      | EmptyString => false
      end
  | Lit a :: r' =>
      match s with
      | String c s' => Ascii.eqb c a && match_here r' s'
      | EmptyString => false
      end
  | AnyStar :: r' =>
      (fix star (t : string) : bool :=
         match_here r' t ||
         match t with
         | String c t' => negb (is_line_terminator c) && star t'
         | EmptyString => false
         end) s
  end.

(** [regex.test(s)]: the expression is not anchored, a match may start at any
    position of [s]. *)
Fixpoint regex_test (r : list atom) (s : string) : bool :=
  match_here r s ||
  match s with
  | String _ s' => regex_test r s'
  | EmptyString => false
  end.

(* ------------------------------------------------------------------ *)
(** ** Paths *)

Definition path : Type := list string.

(** Lexical normalisation of a list of segments below the root: empty and
    ["."] segments vanish, [".."] drops the segment before it (and is itself
    dropped at the root). [acc] is the reversed prefix already normalised. *)
Fixpoint normalize_from (acc : list string) (segs : list string) : path :=
  match segs with
  | [] => rev acc
  | seg :: rest =>
      if String.eqb seg EmptyString || String.eqb seg "." then normalize_from acc rest
      else if String.eqb seg ".."
           then normalize_from (tl acc) rest
           else normalize_from (seg :: acc) rest
  end.

(** [path.join(dir, name)] for an absolute normalised [dir]. *)
Definition path_join (dir : path) (name : string) : path :=
  normalize_from (rev dir) (split "/" name).

(** [path.resolve(dir, target)]: an absolute [target] replaces [dir]. *)
Definition path_resolve (dir : path) (target : string) : path :=
  if startsWith target "/" then normalize_from [] (split "/" target)
  else normalize_from (rev dir) (split "/" target).

(** [path.basename(p)] of an absolute normalised path. *)
Definition basename (p : path) : string := last p EmptyString.

Fixpoint strip_common (from to : path) : path * path :=
  match from, to with
  | a :: from', b :: to' =>
      if String.eqb a b then strip_common from' to' else (from, to)
  | _, _ => (from, to)
  end.

(** [path.relative(from, to)] of two absolute normalised paths. *)
Definition path_relative (from to : path) : string :=
  let (up, down) := strip_common from to in
  join "/" (map (fun _ => "..") up ++ down).

(* ------------------------------------------------------------------ *)
(** ** The ignore filter *)

Definition IGNORE_PATTERNS : list string :=
  [ "node_modules"; ".git"; ".next"; ".turbo"; "dist"; "out"; ".vercel";
    ".cache"; ".DS_Store"; "*.env*"; "package-lock.json"; "yarn.lock";
    "pnpm-lock.yaml" ].

(** One turn of the loop of [shouldIgnore]: does [pattern] match?  A pattern
    whose expression is outside the modelled fragment matches nothing here;
    no built-in pattern is. *)
Definition pattern_matches (pattern base relativePath : string) : bool :=
  if includes pattern "*" then
    match RegExp (replace_stars pattern) with
    | Some regex => regex_test regex base || regex_test regex relativePath
    | None => false
    end
  else String.eqb base pattern || String.eqb relativePath pattern.

(** The loop of [shouldIgnore] over a list of patterns. *)
Definition shouldIgnoreWith (patterns : list string)
    (filePath : path) (relativePath : string) : bool :=
  existsb (fun pattern => pattern_matches pattern (basename filePath) relativePath)
          patterns.

Definition shouldIgnore (filePath : path) (relativePath : string) : bool :=
  shouldIgnoreWith IGNORE_PATTERNS filePath relativePath.

(* ------------------------------------------------------------------ *)
(** ** JSON values and file contents *)

(** A parsed JSON document.  An object keeps its keys in order, as
    [JSON.stringify] writes them in the order the object holds them. *)
Inductive json : Type :=
  | JNull
  | JBool (b : bool)
  | JNum (literal : string)
  | JStr (s : string)
  | JArr (items : list json)
  | JObj (fields : list (string * json)).

(** A file is its text; a file whose text is a JSON document is represented by
    the value the text parses to ([fs.readJson] returns it, [fs.writeJson]
    stores it). *)
Inductive content : Type :=
  | Text (bytes : string)
  | JsonText (value : json).

(* ------------------------------------------------------------------ *)
(** ** File trees *)

Inductive node : Type :=
  | File (c : content)
  | Dir (entries : list (string * node))
  | Symlink (target : string).

Section Entries.
Context {A : Type}.

Fixpoint entry_get (name : string) (es : list (string * A)) : option A :=
  match es with
  | [] => None
  | (k, v) :: es' => if String.eqb k name then Some v else entry_get name es'
  end.

(** Assignment: an existing key keeps its place, a new key goes last. *)
Fixpoint entry_set (name : string) (v : A) (es : list (string * A))
  : list (string * A) :=
  match es with
  | [] => [(name, v)]
  | (k, w) :: es' =>
      if String.eqb k name then (k, v) :: es'
      else (k, w) :: entry_set name v es'
  end.

Fixpoint entry_remove (name : string) (es : list (string * A))
  : list (string * A) :=
  match es with
  | [] => []
  | (k, w) :: es' =>
      if String.eqb k name then entry_remove name es'
      else (k, w) :: entry_remove name es'
  end.
End Entries.

(** The node at a physical path: no symbolic link is followed. *)
Fixpoint get (p : path) (d : node) : option node :=
  match p with
  | [] => Some d
  | name :: p' =>
      match d with
      | Dir es =>
          match entry_get name es with
          | Some child => get p' child
          | None => None
          end
      | _ => None
      end
  end.

(** The kernel's limit on the symbolic links followed in one lookup. *)
Definition MAXSYMLINKS : nat := 40.

(** Path lookup as the kernel does it, from the real directory [cur] along
    the segments [rest]: each symbolic link met on the way is followed; the
    last one is followed only when [follow] is set.  The result is the real
    path reached and the node there. *)
Fixpoint walk (hops : nat) (root : node) (follow : bool)
    (cur : path) (rest : list string) {struct hops} : option (path * node) :=
  (fix go (cur : path) (rest : list string) {struct rest}
     : option (path * node) :=
     match rest with
     | [] => option_map (pair cur) (get cur root)
     | seg :: rest' =>
         if String.eqb seg EmptyString || String.eqb seg "." then go cur rest'
         else if String.eqb seg ".." then go (removelast cur) rest'
         else
           match get (cur ++ [seg]) root with
           | Some (Symlink target) =>
               match rest', follow with
               | [], false => Some (cur ++ [seg], Symlink target)
               | _, _ =>
                   match hops with
                   | O => None
                   | S hops' =>
                       walk hops' root follow
                            (if startsWith target "/" then [] else cur)
                            (split "/" target ++ rest')
                   end
               end
           | Some (Dir es) => go (cur ++ [seg]) rest'
           | Some (File c) =>
               match rest' with
               | [] => Some (cur ++ [seg], File c)
               | _ => None
               end
           | None => None
           end
     end) cur rest.

Arguments walk : simpl never.
Opaque MAXSYMLINKS.

(** [fs.lstat]: the node a path names, a final symbolic link not followed. *)
Definition lstat (root : node) (p : path) : option node :=
  option_map snd (walk MAXSYMLINKS root false [] p).

(** [fs.stat]: the same with the final symbolic link followed. *)
Definition stat (root : node) (p : path) : option node :=
  option_map snd (walk MAXSYMLINKS root true [] p).

(** [fs.pathExists]: never rejects. *)
Definition pathExists (root : node) (p : path) : bool :=
  match stat root p with Some _ => true | None => false end.

(** [fs.readdir]: the names in a directory, in the order it holds them. *)
Definition readdir (root : node) (p : path) : option (list string) :=
  match stat root p with
  | Some (Dir es) => Some (map fst es)
  | _ => None
  end.

(** [fs.readlink]. *)
Definition readlink (root : node) (p : path) : option string :=
  match lstat root p with
  | Some (Symlink target) => Some target
  | _ => None
  end.

(* ------------------------------------------------------------------ *)
(** ** Writing to the project store *)

(** Directories are made and entries are replaced or removed at physical
    paths: the working directory is a real path, and an entry that is in the
    way is in the way whatever its kind.  Only [fs.writeFile] writes through
    a final symbolic link. *)

(** [fs.ensureDir]: [mkdir -p]; [None] when something that is not a directory
    is in the way.  The system call goes through a symbolic link to a
    directory; here such a link is in the way like a file.  The two agree on
    a store without symbolic links on the path, and statements that need the
    agreement say so ([link_free]). *)
Fixpoint ensureDir (p : path) (d : node) {struct p} : option node :=
  match d with
  | Dir es =>
      match p with
      | [] => Some d
      | name :: p' =>
          match entry_get name es with
          | Some child =>
              option_map (fun c => Dir (entry_set name c es)) (ensureDir p' child)
          | None =>
              option_map (fun c => Dir (entry_set name c es)) (ensureDir p' (Dir []))
          end
      end
  | _ => None
  end.

(** Rewrite the entry at [p], whose parent directory must exist: [f] receives
    the entry ([None] when absent) and answers the new entry, or [None] to
    reject. *)
Fixpoint modify (p : path) (f : option node -> option node) (d : node)
    {struct p} : option node :=
  match p with
  | [] => f (Some d)
  | name :: p' =>
      match d with
      | Dir es =>
          match p' with
          | [] =>
              option_map (fun c => Dir (entry_set name c es))
                         (f (entry_get name es))
          | _ :: _ =>
              match entry_get name es with
              | Some child =>
                  option_map (fun c => Dir (entry_set name c es))
                             (modify p' f child)
              | None => None
              end
          end
      | _ => None
      end
  end.

(** [fs.remove]: [rm -rf], nothing to do when the entry is absent. *)
Fixpoint remove (p : path) (d : node) {struct p} : node :=
  match p, d with
  | [name], Dir es => Dir (entry_remove name es)
  | name :: p', Dir es =>
      match entry_get name es with
      | Some child => Dir (entry_set name (remove p' child) es)
      | None => d
      end
  | _, _ => d
  end.

(** What [fs.copy] (no [dereference]) leaves at the destination entry when it
    copies the node [n] over [existing]; [None] is a rejection.  A file
    replaces a file or a link, never a directory; a link is created where
    nothing is, or replaces a link; a directory is merged into a directory,
    entry by entry.  (The materializer only ever copies files and links; a
    directory reaches [fs.copy] through [copyNpmrc] alone, and its copy is
    taken as a whole here.) *)
Fixpoint copy_node (n : node) (existing : option node) {struct n} : option node :=
  match n with
  | File c =>
      match existing with
      | Some (Dir _) => None
      | _ => Some (File c)
      end
  | Symlink target =>
      match existing with
      | None | Some (Symlink _) => Some (Symlink target)
      | _ => None
      end
  | Dir es =>
      match existing with
      | Some (File _) | Some (Symlink _) => None
      | _ =>
          option_map Dir
            ((fix each (es : list (string * node)) (ds : list (string * node))
                : option (list (string * node)) :=
                match es with
                | [] => Some ds
                | (k, child) :: es' =>
                    match copy_node child (entry_get k ds) with
                    | Some c => each es' (entry_set k c ds)
                    | None => None
                    end
                end) es (match existing with Some (Dir ds) => ds | _ => [] end))
      end
  end.

(** The three ways an asynchronous function ends, with the store it leaves. *)
Inductive outcome : Type :=
  | Done (d : node)
  | Threw (d : node)
  | OutOfFuel.

(** [fs.copy(srcPath, destPath)] from the template store [tfs] into [d]. *)
Definition fs_copy (tfs : node) (srcPath destPath : path) (d : node) : outcome :=
  match lstat tfs srcPath with
  | None => Threw d
  | Some n =>
      match ensureDir (removelast destPath) d with
      | None => Threw d
      | Some d1 =>
          match modify destPath (copy_node n) d1 with
          | Some d2 => Done d2
          | None => Threw d1
          end
      end
  end.

(* ------------------------------------------------------------------ *)
(** ** The materializer *)

Section Materializer.
(** [templateDir], and the store that holds the template. *)
Variable templateDir : path.
Variable tfs : node.

(** The body of the [for] loop of [instantScaffold] for one [item];
    [recur] is [instantScaffold] itself.  [Done] lets the loop go on. *)
Definition scaffold_item (recur : path -> path -> node -> outcome)
    (src dest : path) (item : string) (d : node) : outcome :=
  let srcPath := path_join src item in
  let destPath := path_join dest item in
  let relativePath := path_relative templateDir srcPath in
  if shouldIgnore srcPath relativePath then Done d
  else
    match lstat tfs srcPath with
    | None => Threw d
    | Some (Symlink _) =>
        let attempt :=
          match readlink tfs srcPath with
          | None => Threw d
          | Some linkTarget =>
              let resolvedPath := path_resolve src linkTarget in
              if pathExists tfs resolvedPath then
                match lstat tfs resolvedPath with
                | None => Threw d
                | Some (Dir _) => recur resolvedPath destPath d
                | Some _ => fs_copy tfs resolvedPath destPath d
                end
              else Done d
          end in
        match attempt with
        | Done d' => Done d'
        | Threw d' => Done d'        (* catch: silently handled *)
        | OutOfFuel => OutOfFuel
        end
    | Some (Dir _) => recur srcPath destPath d
    | Some (File _) => fs_copy tfs srcPath destPath d
    end.

Fixpoint scaffold_loop (body : string -> node -> outcome)
    (items : list string) (d : node) : outcome :=
  match items with
  | [] => Done d
  | item :: items' =>
      match body item d with
      | Done d' => scaffold_loop body items' d'
      | stop => stop
      end
  end.

(** [instantScaffold(src, dest, options)]; [options] is only passed on. *)
Fixpoint instantScaffold (fuel : nat) (src dest : path) (d : node) : outcome :=
  match fuel with
  | O => OutOfFuel
  | S fuel' =>
      match ensureDir dest d with
      | None => Threw d
      | Some d1 =>
          match readdir tfs src with
          | None => Threw d1
          | Some items =>
              scaffold_loop (scaffold_item (instantScaffold fuel') src dest)
                            items d1
          end
      end
  end.

(** [validateTemplate]: [false] when it throws. *)
Definition validateTemplate : bool :=
  pathExists tfs templateDir &&
  forallb (fun dir => pathExists tfs (path_join templateDir dir))
          ["apps"; "packages"].

(** [copyNpmrc(templateDir, targetDir)]. *)
Definition copyNpmrc (targetDir : path) (d : node) : outcome :=
  let npmrcPath := path_join templateDir ".npmrc" in
  if pathExists tfs npmrcPath
  then fs_copy tfs npmrcPath (path_join targetDir ".npmrc") d
  else Done d.
End Materializer.

(* ------------------------------------------------------------------ *)
(** ** The manifest configurator *)

(** How far a write of a file got when it failed: the file was not opened;
    or it was opened, which truncates it, and a part of the text was written,
    which is no JSON document; or all of the text was written and the
    failure came after. *)
Inductive written : Type :=
  | Unopened
  | Cut (bytes : string)
  | Whole.

(** The I/O failures a run may meet, and how far a failing operation got:
    what a failing write of the manifest has written, and the entries a
    failing removal has removed below its path, given relative to it. *)
Record faults : Type := {
  readJson_fails : bool;
  writeJson_fails : bool;
  remove_fails : bool;
  cleanup_fails : bool;
  writeJson_torn : written;
  remove_partial : list path;
  cleanup_partial : list path
}.

Definition no_faults : faults :=
  {| readJson_fails := false; writeJson_fails := false;
     remove_fails := false; cleanup_fails := false;
     writeJson_torn := Unopened; remove_partial := []; cleanup_partial := [] |}.

(** [fs.readJson]: [None] when the read or the parse fails. *)
Definition readJson (env : faults) (d : node) (p : path) : option json :=
  if readJson_fails env then None
  else match stat d p with
       | Some (File (JsonText value)) => Some value
       | _ => None
       end.

(** The file at [p] holding [c] and nothing else, as [fs.writeFile] leaves it
    when it has written [c]: through a final symbolic link if there is one;
    [None] when the file cannot be opened for writing. *)
Definition writeFile (p : path) (c : content) (d : node) : option node :=
  match walk MAXSYMLINKS d true [] p with
  | Some (real, File _) => modify real (fun _ => Some (File c)) d
  | Some _ => None
  | None =>
      modify p (fun e => match e with None => Some (File c) | _ => None end) d
  end.

(** What a failing write of the text of [obj] leaves in the file, [None]
    when the file is as it was. *)
Definition torn (w : written) (obj : json) : option content :=
  match w with
  | Unopened => None
  | Cut bytes => Some (Text bytes)
  | Whole => Some (JsonText obj)
  end.

(** [fs.writeJson(file, obj, { spaces: 2 })]: the text of [obj] is made in
    memory and handed to [fs.writeFile], which opens the file, truncating
    it, and then writes. *)
Definition writeJson (env : faults) (p : path) (obj : json) (d : node)
  : outcome :=
  if writeJson_fails env then
    match torn (writeJson_torn env) obj with
    | None => Threw d
    | Some c =>
        match writeFile p c d with
        | Some d' => Threw d'
        | None => Threw d
        end
    end
  else
    match writeFile p (JsonText obj) d with
    | Some d' => Done d'
    | None => Threw d
    end.

(** The entry at [q] below [p] removed; [q] is not empty. *)
Definition remove_below (p q : path) (d : node) : node :=
  match q with
  | [] => d
  | _ :: _ => remove (p ++ q) d
  end.

(** [fs.remove(p)]: entries are removed one by one, the deepest first; a
    removal that fails stops with the entries [partial] below [p] gone. *)
Definition fs_remove (fails : bool) (partial : list path) (p : path) (d : node)
  : outcome :=
  if fails then Threw (fold_left (fun s q => remove_below p q s) partial d)
  else Done (remove p d).

(** [o[k] = v] in a module (strict mode): a [TypeError] on [null] and on a
    primitive.  A property put on an array is not an element of it, and
    [JSON.stringify] does not write it. *)
Definition set_property (k : string) (v : json) (o : json) : option json :=
  match o with
  | JObj fields => Some (JObj (entry_set k v fields))
  | JArr items => Some (JArr items)
  | _ => None
  end.

(** [delete o[k]]. *)
Definition delete_property (k : string) (o : json) : option json :=
  match o with
  | JObj fields => Some (JObj (entry_remove k fields))
  | JNull => None
  | _ => Some o
  end.

(** The in-memory mutation of [packageJson] (between the read and the write). *)
Definition mutate_manifest (packageManager projectName : string)
    (packageJson : json) : option json :=
  match set_property "name" (JStr projectName) packageJson with
  | None => None
  | Some pj =>
      if String.eqb packageManager "npm" then
        delete_property "packageManager" pj
      else if String.eqb packageManager "yarn" then
        match set_property "packageManager" (JStr "yarn@4.0.0") pj with
        | Some pj' =>
            set_property "workspaces" (JArr [JStr "apps/*"; JStr "packages/*"]) pj'
        | None => None
        end
      else set_property "packageManager" (JStr "pnpm@9.0.0") pj
  end.

(** The first half of [configurePackageManager]: the manifest. *)
Definition configure_manifest (env : faults) (targetDir : path)
    (packageManager projectName : string) (d : node) : outcome :=
  let packageJsonPath := path_join targetDir "package.json" in
  if pathExists d packageJsonPath then
    match readJson env d packageJsonPath with
    | None => Threw d
    | Some packageJson =>
        match mutate_manifest packageManager projectName packageJson with
        | None => Threw d
        | Some packageJson' =>
            writeJson env packageJsonPath packageJson' d
        end
    end
  else Done d.

(** The second half: the workspace files. *)
Definition configure_workspace (env : faults) (targetDir : path)
    (packageManager : string) (d : node) : outcome :=
  if String.eqb packageManager "npm" then
    let pnpmWorkspacePath := path_join targetDir "pnpm-workspace.yaml" in
    if pathExists d pnpmWorkspacePath
    then fs_remove (remove_fails env) (remove_partial env) pnpmWorkspacePath d
    else Done d
  else if String.eqb packageManager "yarn" then
    let pnpmWorkspacePath := path_join targetDir "pnpm-workspace.yaml" in
    if pathExists d pnpmWorkspacePath
    then fs_remove (remove_fails env) (remove_partial env) pnpmWorkspacePath d
    else Done d
  else Done d.

(** [configurePackageManager(targetDir, packageManager, projectName)]. *)
Definition configurePackageManager (env : faults) (targetDir : path)
    (packageManager projectName : string) (d : node) : outcome :=
  match configure_manifest env targetDir packageManager projectName d with
  | Done d1 => configure_workspace env targetDir packageManager d1
  | stop => stop
  end.

(* ------------------------------------------------------------------ *)
(** ** The command *)

Definition is_space (c : ascii) : bool :=
  existsb (Ascii.eqb c) [" "; "009"; "010"; "011"; "012"; "013"]%char.

Fixpoint trimStart (s : list ascii) : list ascii :=
  match s with
  | c :: s' => if is_space c then trimStart s' else s
  | [] => []
  end.

(** [s.trim()]. *)
Definition trim (s : string) : string :=
  string_of_list_ascii
    (rev (trimStart (rev (trimStart (list_ascii_of_string s))))).

(** The predicate of [args.find] that picks the package-manager argument. *)
Definition is_packageManagerArg (arg : string) : bool :=
  startsWith arg "--package-manager=" || String.eqb arg "--npm" ||
  String.eqb arg "--pnpm" || String.eqb arg "--yarn".

(** What the program and the user bring to one run: [process.argv.slice(2)],
    [process.cwd()] and the two answers [inquirer] would give. *)
Record invocation : Type := {
  args : list string;
  cwd : path;
  answer_projectName : string;
  answer_packageManager : string
}.

(** [let projectName = args[0]], prompted for when it is falsy. *)
Definition chosen_projectName (inv : invocation) : string :=
  match args inv with
  | a :: _ => if String.eqb a EmptyString then trim (answer_projectName inv) else a
  | [] => trim (answer_projectName inv)
  end.

Definition chosen_packageManager (inv : invocation) : string :=
  match find is_packageManagerArg (args inv) with
  | Some packageManagerArg =>
      if String.eqb packageManagerArg "--npm" then "npm"
      else if String.eqb packageManagerArg "--pnpm" then "pnpm"
      else if String.eqb packageManagerArg "--yarn" then "yarn"
      else if startsWith packageManagerArg "--package-manager="
           then nth 1 (split "=" packageManagerArg) EmptyString
           else "pnpm"
  | None => answer_packageManager inv
  end.

(* ------------------------------------------------------------------ *)
(** ** The background installation *)

(** The command and the arguments [installDependencies] hands to [spawn]
    (with [shell: true]). *)
Definition installDependencies_command (packageManager : string)
  : string * list string :=
  let installCommand :=
    if String.eqb packageManager "yarn" then "yarn" else packageManager in
  let args :=
    if String.eqb packageManager "yarn" then [] else ["install"] in
  (installCommand, args).

(** What [main] spawns after a successful scaffolding, if anything. *)
Definition background_install (packageManager : string)
  : option (string * list string) :=
  if String.eqb packageManager "pnpm"
  then Some (installDependencies_command packageManager)
  else None.

(** How [main] ends: the process exits with a code, leaving a store; or
    [main] has done its own work, leaving a store, and has spawned a command
    in the target directory, which goes on working there (the process exits
    when the command ends or is killed, after five seconds at most); or the
    fuel did not reach. *)
Inductive finished : Type :=
  | Exited (code : nat) (d : node)
  | Installing (d : node) (command : string * list string)
  | Unfinished.

(** The [catch] block of [main]. *)
Definition main_catch (env : faults) (inv : invocation) (d : node) : finished :=
  let projectName :=
    match args inv with
    | a :: _ => if String.eqb a EmptyString then "my-app" else a
    | [] => "my-app"
    end in
  let targetDir := path_join (cwd inv) projectName in
  if pathExists d targetDir then
    match fs_remove (cleanup_fails env) (cleanup_partial env) targetDir d with
    | Done d' => Exited 1 d'
    | Threw d' => Exited 1 d'
    | OutOfFuel => Unfinished
    end
  else Exited 1 d.

(** [main]; the steps after the scaffolding print, wait, and for pnpm start
    the installation in the background. *)
Definition main (templateDir : path) (tfs : node) (env : faults) (fuel : nat)
    (inv : invocation) (d : node) : finished :=
  if existsb (String.eqb "--help") (args inv) || existsb (String.eqb "-h") (args inv)
  then Exited 0 d
  else if negb (validateTemplate templateDir tfs) then main_catch env inv d
  else
    let projectName := chosen_projectName inv in
    let packageManager := chosen_packageManager inv in
    let targetDir := path_join (cwd inv) projectName in
    if pathExists d targetDir then Exited 1 d
    else
      match instantScaffold templateDir tfs fuel templateDir targetDir d with
      | OutOfFuel => Unfinished
      | Threw d1 => main_catch env inv d1
      | Done d1 =>
          match configurePackageManager env targetDir packageManager projectName d1 with
          | OutOfFuel => Unfinished
          | Threw d2 => main_catch env inv d2
          | Done d2 =>
              match copyNpmrc templateDir tfs targetDir d2 with
              | OutOfFuel => Unfinished
              | Threw d3 => main_catch env inv d3
              | Done d3 =>
                  match background_install packageManager with
                  | Some command => Installing d3 command
                  | None => Exited 0 d3
                  end
              end
          end
      end.

(* ------------------------------------------------------------------ *)
(** ** Well-formed trees, and the tree the materializer produces *)

(** A name as a directory holds them. *)
Definition plain (name : string) : bool :=
  negb (String.eqb name EmptyString) && negb (String.eqb name ".") &&
  negb (String.eqb name "..") && negb (includes name "/").

Fixpoint distinct (names : list string) : bool :=
  match names with
  | [] => true
  | n :: rest => negb (existsb (String.eqb n) rest) && distinct rest
  end.

(** Every directory of the tree holds plain, distinct names. *)
Fixpoint well_formed (n : node) : bool :=
  match n with
  | Dir es =>
      forallb plain (map fst es) && distinct (map fst es) &&
      (fix all (es : list (string * node)) : bool :=
         match es with
         | [] => true
         | (_, child) :: es' => well_formed child && all es'
         end) es
  | _ => true
  end.

Fixpoint link_free (n : node) : bool :=
  match n with
  | File _ => true
  | Symlink _ => false
  | Dir es =>
      (fix all (es : list (string * node)) : bool :=
         match es with
         | [] => true
         | (_, child) :: es' => link_free child && all es'
         end) es
  end.

Section Mirror.
Variable templateDir : path.
Variable tfs : node.

(** The entries one template entry contributes to the destination, as a
    function of the template alone; it follows the program, not a
    specification of it: nothing when the ignore rules match the entry; a
    file as it is; a directory as the mirror of its entries; for a symbolic
    link, what is found at the path the program computes for it,
    [path.resolve(src, linkTarget)], which is lexical and need not be where
    the link leads: a file's content, the mirror of a directory, nothing when
    nothing is there.  [sub] mirrors a directory. *)
Definition mirror_item (sub : path -> option (list (string * node)))
    (src : path) (item : string) : option (list (string * node)) :=
  let srcPath := path_join src item in
  if shouldIgnore srcPath (path_relative templateDir srcPath) then Some []
  else
    match lstat tfs srcPath with
    | Some (File c) => Some [(item, File c)]
    | Some (Dir _) => option_map (fun es => [(item, Dir es)]) (sub srcPath)
    | Some (Symlink linkTarget) =>
        let resolvedPath := path_resolve src linkTarget in
        match stat tfs resolvedPath with
        | Some (File c) => Some [(item, File c)]
        | Some (Dir _) =>
            option_map (fun es => [(item, Dir es)]) (sub resolvedPath)
        | _ => Some []
        end
    | None => None
    end.

Fixpoint mirror_items (one : string -> option (list (string * node)))
    (items : list string) : option (list (string * node)) :=
  match items with
  | [] => Some []
  | item :: items' =>
      match one item, mirror_items one items' with
      | Some es, Some es' => Some (es ++ es')
      | _, _ => None
      end
  end.

(** The entries of the destination for the template directory [src];
    [None] when [src] is not a directory or the fuel does not reach. *)
Fixpoint mirror (fuel : nat) (src : path) : option (list (string * node)) :=
  match fuel with
  | O => None
  | S fuel' =>
      match readdir tfs src with
      | None => None
      | Some items => mirror_items (mirror_item (mirror fuel') src) items
      end
  end.

(** No symbolic link met on the way from [src] has another symbolic link
    at the path the program computes for it. *)
Definition unchained_item (sub : path -> bool) (src : path) (item : string)
  : bool :=
  let srcPath := path_join src item in
  if shouldIgnore srcPath (path_relative templateDir srcPath) then true
  else
    match lstat tfs srcPath with
    | Some (Dir _) => sub srcPath
    | Some (Symlink linkTarget) =>
        let resolvedPath := path_resolve src linkTarget in
        if pathExists tfs resolvedPath then
          match lstat tfs resolvedPath with
          | Some (Symlink _) => false
          | Some (Dir _) => sub resolvedPath
          | _ => true
          end
        else true
    | _ => true
    end.

Fixpoint unchained (fuel : nat) (src : path) : bool :=
  match fuel with
  | O => true
  | S fuel' =>
      match readdir tfs src with
      | None => true
      | Some items => forallb (unchained_item (unchained fuel') src) items
      end
  end.
End Mirror.

(** The store with the node at the existing path [p] replaced by [n]. *)
Fixpoint put (p : path) (n : node) (d : node) {struct p} : node :=
  match p with
  | [] => n
  | name :: p' =>
      match d with
      | Dir es =>
          match entry_get name es with
          | Some child => Dir (entry_set name (put p' n child) es)
          | None => d
          end
      | _ => d
      end
  end.

(** [q] is [p] or an ancestor of it. *)
Fixpoint prefix_of (q p : path) : bool :=
  match q, p with
  | [], _ => true
  | b :: q', a :: p' => String.eqb b a && prefix_of q' p'
  | _ :: _, [] => false
  end.

(** The two paths part at some segment: neither is below the other. *)
Fixpoint diverge (p q : path) : bool :=
  match p, q with
  | a :: p', b :: q' => if String.eqb a b then diverge p' q' else true
  | _, _ => false
  end.

Definition is_symlink (n : node) : bool :=
  match n with Symlink _ => true | _ => false end.

(* ------------------------------------------------------------------ *)
(** ** Predicates of the statements *)

(** [s] holds a character that is not a line terminator, with the text
    ["env"] right after it. *)
Definition follows_a_char (s : string) : Prop :=
  exists (pre : string) (c : ascii) (post : string),
    is_line_terminator c = false /\
    s = (pre ++ String c ("env" ++ post))%string.

(** The expression [new RegExp] builds for the rule ["*.env*"]. *)
Definition env_regex : list atom :=
  [AnyStar; Any; Lit "e"; Lit "n"; Lit "v"; AnyStar]%char.

(** A run ended, normally or not, leaving [d']. *)
Definition leaves (o : outcome) (d' : node) : Prop :=
  o = Done d' \/ o = Threw d'.

(** The writes of [recur] stay at or below the destination it is given. *)
Definition confined (recur : path -> path -> node -> outcome) : Prop :=
  forall src dest d d' q,
    leaves (recur src dest d) d' -> diverge dest q = true ->
    get q d' = get q d.

(** With the fuel [fuel], and a destination that is new or empty,
    [instantScaffold] ends normally and puts the mirror of [src] there. *)
Definition builds_mirror (templateDir : path) (tfs : node) (fuel : nat) : Prop :=
  forall src dest d d1 es,
    ensureDir dest d = Some d1 -> get dest d1 = Some (Dir []) ->
    mirror templateDir tfs fuel src = Some es ->
    unchained templateDir tfs fuel src = true ->
    instantScaffold templateDir tfs fuel src dest d
    = Done (put dest (Dir es) d1).

(* ------------------------------------------------------------------ *)
(** ** Sample stores *)

(** A working directory [/home/u] that holds a freshly materialized project
    [demo]. *)
Definition sample_entries : list (string * node) :=
  [("package.json", File (JsonText (JObj [("name", JStr "template")])));
   ("pnpm-workspace.yaml", File (Text "packages:"))].

Definition sample_project : node :=
  Dir [("home", Dir [("u", Dir [("demo", Dir sample_entries)])])].

(** A write that fails before the file is opened, and one that fails
    after the first character. *)
Definition write_fault : faults :=
  {| readJson_fails := false; writeJson_fails := true;
     remove_fails := false; cleanup_fails := false;
     writeJson_torn := Unopened; remove_partial := []; cleanup_partial := [] |}.

Definition torn_write_fault : faults :=
  {| readJson_fails := false; writeJson_fails := true;
     remove_fails := false; cleanup_fails := false;
     writeJson_torn := Cut "{"; remove_partial := []; cleanup_partial := [] |}.

(** The template of a package installed at [/pkg]: the two required
    directories and a manifest. *)
Definition sample_templateDir : path := ["pkg"; "templates"; "basic"].

Definition template_at (entries : list (string * node)) : node :=
  Dir [("pkg", Dir [("templates", Dir [("basic", Dir entries)])])].

Definition sample_template : node :=
  template_at
    [("apps", Dir [("web", Dir [("page.tsx", File (Text "export"))])]);
     ("packages", Dir [("ui", Dir [("button.tsx", File (Text "button"))])]);
     ("package.json", File (JsonText (JObj [("name", JStr "template")])))].

(** A template with an installed dependency two levels down, a link to a
    directory, a link to a file, and a link to nothing. *)
Definition linked_template : node :=
  template_at
    [("apps", Dir [("web", Dir [
        ("page.tsx", File (Text "export"));
        ("node_modules", Dir [("react", Dir [("index.js", File (Text "react"))])])])]);
     ("packages", Dir [("ui", Dir [("button.tsx", File (Text "button"))])]);
     ("shared", Symlink "packages/ui");
     ("LICENSE", Symlink "packages/ui/button.tsx");
     ("dangling", Symlink "gone/away");
     ("package.json", File (JsonText (JObj [("name", JStr "template")])))].

(** A template in which a link leads to another link. *)
Definition chained_template : node :=
  template_at
    [("apps", Dir []);
     ("packages", Dir []);
     ("README.md", File (Text "read me"));
     ("docs.md", Symlink "README.md");
     ("index.md", Symlink "docs.md")].

(** Templates in which a link leads through a link to a directory and back
    up: [x] is [a/../README] and [a] is [packages/deep], so [x] leads to
    [packages/README], while [path.resolve] makes the path [README] of it.
    In the first [packages/README] is missing and [x] is broken; in the
    second it is there and [x] leads to it. *)
Definition dotted_template : node :=
  template_at
    [("apps", Dir []);
     ("packages", Dir [("deep", Dir [])]);
     ("README", File (Text "root readme"));
     ("a", Symlink "packages/deep");
     ("x", Symlink "a/../README")].

Definition crossed_template : node :=
  template_at
    [("apps", Dir []);
     ("packages", Dir [("deep", Dir []);
                       ("README", File (Text "pkg readme"))]);
     ("README", File (Text "root readme"));
     ("a", Symlink "packages/deep");
     ("x", Symlink "a/../README")].

(** An empty working directory [/home/u]. *)
Definition empty_home : node := Dir [("home", Dir [("u", Dir [])])].

(** The same with a manifest that does not parse. *)
Definition unparsable_template : node :=
  template_at
    [("apps", Dir []);
     ("packages", Dir []);
     ("package.json", File (Text "{ name: template, }"))].

(** A template without its [packages] directory. *)
Definition incomplete_template : node :=
  template_at [("apps", Dir [])].

(** A working directory [/home/u] with two projects of the user in it. *)
Definition sample_home : node :=
  Dir [("home", Dir [("u", Dir [
    ("my-app", Dir [("notes.txt", File (Text "mine"))]);
    ("demo", Dir [("thesis.tex", File (Text "mine too"))])])])].

(** A working directory in which a file is in the way of [demo/shared]. *)
Definition obstructed_home : node :=
  Dir [("home", Dir [("u", Dir [("demo", Dir [
    ("shared", File (Text "in the way"))])])])].

(** A project whose manifest holds [null]. *)
Definition null_manifest_entries : list (string * node) :=
  [("package.json", File (JsonText JNull));
   ("pnpm-workspace.yaml", File (Text "packages:"))].

Definition null_manifest_project : node :=
  Dir [("home", Dir [("u", Dir [("demo", Dir null_manifest_entries)])])].


(** A template that ships an [.npmrc]; nothing in it is ignored or linked,
    so its mirror has the same entries. *)
Definition npmrc_template_entries : list (string * node) :=
  [("apps", Dir [("web", Dir [("page.tsx", File (Text "export"))])]);
   ("packages", Dir [("ui", Dir [("button.tsx", File (Text "button"))])]);
   (".npmrc", File (Text "auto-install-peers=true"));
   ("package.json", File (JsonText (JObj [("name", JStr "template")])))].

Definition npmrc_template : node := template_at npmrc_template_entries.





(* ------------------------------------------------------------------ *)
(** ** The prompt for the project name *)

(** A character of the class [[a-zA-Z0-9-_]]. *)
Definition is_name_char (c : ascii) : bool :=
  let n := nat_of_ascii c in
  Nat.leb 97 n && Nat.leb n 122 || Nat.leb 65 n && Nat.leb n 90 ||
  Nat.leb 48 n && Nat.leb n 57 || Ascii.eqb c "-" || Ascii.eqb c "_".

Fixpoint all_chars (f : ascii -> bool) (s : string) : bool :=
  match s with
  | EmptyString => true
  | String c s' => f c && all_chars f s'
  end.

(** [/^[a-zA-Z0-9-_]+$/.test(s)]. *)
Definition name_regex_test (s : string) : bool :=
  negb (String.eqb s EmptyString) && all_chars is_name_char s.

(** What [validate] answers: [true], or the message shown to the user. *)
Inductive validation : Type :=
  | Accepted
  | Rejected (message : string).

(** The [validate] function of the project-name prompt; [inquirer] asks
    again until it accepts. *)
Definition validate (input : string) : validation :=
  if String.eqb (trim input) EmptyString
  then Rejected "Project name cannot be empty"
  else if negb (name_regex_test (trim input))
  then Rejected "Project name can only contain letters, numbers, hyphens, and underscores"
  else Accepted.

(* ------------------------------------------------------------------ *)
(** ** Further predicates of the statements *)

(** The rules of [IGNORE_PATTERNS] that hold no wildcard. *)
Definition literal_rules : list string :=
  [ "node_modules"; ".git"; ".next"; ".turbo"; "dist"; "out"; ".vercel";
    ".cache"; ".DS_Store"; "package-lock.json"; "yarn.lock";
    "pnpm-lock.yaml" ].



(* ================================================================== *)
(** * Properties *)

Example ex_denver : shouldIgnore ["t"; "denver.txt"] "denver.txt" = true.
Proof. reflexivity. Qed.
Example ex_readme : shouldIgnore ["t"; "README.md"] "README.md" = false.
Proof. reflexivity. Qed.
Example ex_rel : path_relative ["t";"b"] ["t";"b";"apps";"web"] = "apps/web".
Proof. reflexivity. Qed.
Example ex_rel2 : path_relative ["t";"b"] ["t";"c";"x"] = "../c/x".
Proof. reflexivity. Qed.
Example ex_res : path_resolve ["t";"b";"apps"] "../packages/ui" = ["t";"b";"packages";"ui"].
Proof. reflexivity. Qed.
Example ex_re : RegExp (replace_stars "*.env*") = Some [AnyStar; Any; Lit "e"; Lit "n"; Lit "v"; AnyStar]%char.
Proof. reflexivity. Qed.

(* ------------------------------------------------------------------ *)
(** ** The ignore filter *)

Lemma regex_test_suffix (r : list atom) (pre suf : string) :
  match_here r suf = true -> regex_test r (pre ++ suf)%string = true.
Proof.
  intros Hm. induction pre as [|a pre IH]; simpl.
  - destruct suf; simpl; rewrite Hm; reflexivity.
  - rewrite IH. apply orb_true_r.
Qed.

Lemma regex_test_inv (r : list atom) (s : string) :
  regex_test r s = true ->
  exists pre suf, s = (pre ++ suf)%string /\ match_here r suf = true.
Proof.
  induction s as [|a s IH]; simpl; intros H.
  - rewrite orb_false_r in H. exists EmptyString, EmptyString. auto.
  - apply orb_true_iff in H. destruct H as [H|H].
    + exists EmptyString, (String a s). auto.
    + destruct (IH H) as (pre & suf & -> & Hm).
      exists (String a pre), suf. auto.
Qed.

Lemma anystar_inv (r : list atom) (t : string) :
  match_here (AnyStar :: r) t = true ->
  exists u v, t = (u ++ v)%string /\ match_here r v = true.
Proof.
  induction t as [|a t IH]; intros H; simpl in H.
  - rewrite orb_false_r in H. exists EmptyString, EmptyString. auto.
  - apply orb_true_iff in H. destruct H as [H|H].
    + exists EmptyString, (String a t). auto.
    + apply andb_true_iff in H. destruct H as [_ H].
      destruct (IH H) as (u & v & -> & Hv).
      exists (String a u), v. auto.
Qed.

Lemma anystar_here (r : list atom) (t : string) :
  match_here r t = true -> match_here (AnyStar :: r) t = true.
Proof.
  intros H. destruct t; simpl; rewrite H; reflexivity.
Qed.

Lemma append_assoc (a b c : string) :
  ((a ++ b) ++ c = a ++ (b ++ c))%string.
Proof. induction a; simpl; congruence. Qed.

Lemma env_regex_spec (s : string) :
  regex_test env_regex s = true <-> follows_a_char s.
Proof.
  unfold env_regex, follows_a_char. split.
  - intros H. apply regex_test_inv in H. destruct H as (pre & suf & -> & H).
    apply anystar_inv in H. destruct H as (u & v & -> & H).
    destruct v as [|c [|e [|n [|w post]]]]; simpl in H;
      try (rewrite ?andb_false_r in H; discriminate).
    repeat (apply andb_true_iff in H; destruct H as [? H]).
    apply negb_true_iff in H0.
    apply Ascii.eqb_eq in H1, H2, H3. subst.
    exists (pre ++ u)%string, c, post. split; [assumption|].
    rewrite append_assoc. reflexivity.
  - intros (pre & c & post & Hc & ->).
    apply regex_test_suffix. apply anystar_here.
    simpl. rewrite Hc. simpl. destruct post; reflexivity.
Qed.

Lemma shouldIgnoreWith_intro (patterns : list string) (pattern : string)
    (filePath : path) (relativePath : string) :
  In pattern patterns ->
  pattern_matches pattern (basename filePath) relativePath = true ->
  shouldIgnoreWith patterns filePath relativePath = true.
Proof.
  intros Hin Hm. unfold shouldIgnoreWith. apply existsb_exists.
  exists pattern. auto.
Qed.

(** C9 (amended): a pattern with a wildcard is tested as the unanchored
    expression obtained by writing [.*] for each [*], every other character
    keeping its meaning in a regular expression; for the built-in rule
    ["*.env*"] the expression is [.*.env.*], it matches exactly the strings
    in which a character other than a line terminator comes right before
    ["env"], and every entry whose base name or root-relative path is such a
    string is skipped. *)
Theorem C9_wildcard_rule :
  (forall pattern regex base relativePath,
      includes pattern "*" = true ->
      RegExp (replace_stars pattern) = Some regex ->
      pattern_matches pattern base relativePath
      = regex_test regex base || regex_test regex relativePath) /\
  replace_stars "*.env*" = ".*.env.*" /\
  RegExp ".*.env.*" = Some env_regex /\
  (forall s, regex_test env_regex s = true <-> follows_a_char s) /\
  (forall filePath relativePath,
      follows_a_char (basename filePath) \/ follows_a_char relativePath ->
      shouldIgnore filePath relativePath = true).
Proof.
  split; [|split; [|split; [|split]]].
  - intros pattern regex base rel Hstar Hre. unfold pattern_matches.
    rewrite Hstar, Hre. reflexivity.
  - reflexivity.
  - reflexivity.
  - exact env_regex_spec.
  - intros filePath rel H.
    apply (shouldIgnoreWith_intro IGNORE_PATTERNS "*.env*").
    + simpl. tauto.
    + change (regex_test env_regex (basename filePath)
              || regex_test env_regex rel = true).
      apply orb_true_iff.
      destruct H as [H|H]; [left|right]; apply env_regex_spec; exact H.
Qed.

Lemma C9_wildcard_rule_witness :
  follows_a_char "denver.txt" /\
  shouldIgnore ["pkg"; "templates"; "basic"; "denver.txt"] "denver.txt" = true.
Proof.
  assert (H : follows_a_char "denver.txt").
  { exists EmptyString, "d"%char, "er.txt". split; reflexivity. }
  split; [exact H|].
  apply (proj2 (proj2 (proj2 (proj2 C9_wildcard_rule)))).
  left. exact H.
Defined.

(** C9, as stated, fails: a line feed is a single character, and the file
    named by a line feed followed by ["env"] is not skipped. *)
Lemma C9_counterexample :
  ~ (forall filePath relativePath pre c post,
        basename filePath = (pre ++ String c ("env" ++ post))%string ->
        shouldIgnore filePath relativePath = true).
Proof.
  intros H.
  specialize (H ["pkg"; "templates"; "basic"; String "010" "env"]
                (String "010" "env") EmptyString "010"%char EmptyString eq_refl).
  vm_compute in H. discriminate.
Qed.

Lemma literal_rule (pattern base relativePath : string) :
  includes pattern "*" = false ->
  (pattern_matches pattern base relativePath = true <->
   base = pattern \/ relativePath = pattern).
Proof.
  intros Hlit. unfold pattern_matches. rewrite Hlit.
  rewrite orb_true_iff, !String.eqb_eq. tauto.
Qed.

Lemma basename_snoc (dir : path) (name : string) :
  basename (dir ++ [name]) = name.
Proof. unfold basename. apply last_last. Qed.

(* ------------------------------------------------------------------ *)
(** ** Names and paths *)

Lemma split_plain (name : string) :
  includes name "/" = false -> split "/" name = [name].
Proof.
  induction name as [|a name IH]; simpl; intros H; [reflexivity|].
  apply orb_false_iff in H. destruct H as [Ha Hn].
  rewrite Ha, (IH Hn). reflexivity.
Qed.

Lemma plain_inv (name : string) :
  plain name = true ->
  String.eqb name EmptyString = false /\ String.eqb name "." = false /\
  String.eqb name ".." = false /\ includes name "/" = false.
Proof.
  unfold plain. rewrite !andb_true_iff, !negb_true_iff. tauto.
Qed.

Lemma path_join_plain (dir : path) (name : string) :
  plain name = true -> path_join dir name = dir ++ [name].
Proof.
  intros H. apply plain_inv in H. destruct H as (H1 & H2 & H3 & H4).
  unfold path_join. rewrite (split_plain _ H4). simpl.
  rewrite H1, H2, H3. simpl. rewrite rev_involutive. reflexivity.
Qed.

(* ------------------------------------------------------------------ *)
(** ** Entries of a directory, fields of an object *)

Section EntryFacts.
Context {A : Type}.
Implicit Types (es : list (string * A)) (k : string) (v : A).

Lemma entry_get_set_eq k v es : entry_get k (entry_set k v es) = Some v.
Proof.
  induction es as [|[k' w] es IH]; simpl.
  - rewrite String.eqb_refl. reflexivity.
  - destruct (String.eqb k' k) eqn:E; simpl; rewrite E; auto.
Qed.

Lemma entry_get_set_neq k k' v es :
  k <> k' -> entry_get k' (entry_set k v es) = entry_get k' es.
Proof.
  intros Hne. induction es as [|[k0 w] es IH]; simpl.
  - apply String.eqb_neq in Hne. rewrite Hne. reflexivity.
  - destruct (String.eqb k0 k) eqn:E; simpl.
    + apply String.eqb_eq in E. subst k0.
      apply String.eqb_neq in Hne. rewrite Hne. reflexivity.
    + rewrite IH. reflexivity.
Qed.

Lemma entry_get_remove_eq k es : entry_get k (entry_remove k es) = None.
Proof.
  induction es as [|[k' w] es IH]; simpl; [reflexivity|].
  destruct (String.eqb k' k) eqn:E; simpl; [|rewrite E]; auto.
Qed.

Lemma entry_get_remove_neq k k' es :
  k <> k' -> entry_get k' (entry_remove k es) = entry_get k' es.
Proof.
  intros Hne. induction es as [|[k0 w] es IH]; simpl; [reflexivity|].
  destruct (String.eqb k0 k) eqn:E; simpl.
  - apply String.eqb_eq in E. subst k0.
    apply String.eqb_neq in Hne. rewrite Hne. exact IH.
  - rewrite IH. reflexivity.
Qed.

Lemma entry_set_same k v es : entry_get k es = Some v -> entry_set k v es = es.
Proof.
  induction es as [|[k' w] es IH]; simpl; [discriminate|].
  destruct (String.eqb k' k) eqn:E.
  - intros [= ->]. reflexivity.
  - intros H. rewrite (IH H). reflexivity.
Qed.

Lemma entry_set_set k v v' es :
  entry_set k v' (entry_set k v es) = entry_set k v' es.
Proof.
  induction es as [|[k' w] es IH]; simpl.
  - rewrite String.eqb_refl. reflexivity.
  - destruct (String.eqb k' k) eqn:E; simpl; rewrite E; congruence.
Qed.

Lemma entry_set_absent k v es :
  entry_get k es = None -> entry_set k v es = es ++ [(k, v)].
Proof.
  induction es as [|[k' w] es IH]; simpl; [reflexivity|].
  destruct (String.eqb k' k); [discriminate|].
  intros H. rewrite (IH H). reflexivity.
Qed.

Lemma entry_remove_absent k es :
  entry_get k es = None -> entry_remove k es = es.
Proof.
  induction es as [|[k' w] es IH]; simpl; [reflexivity|].
  destruct (String.eqb k' k); [discriminate|].
  intros H. rewrite (IH H). reflexivity.
Qed.

Lemma entry_get_app k es es' :
  entry_get k (es ++ es') =
  match entry_get k es with Some v => Some v | None => entry_get k es' end.
Proof.
  induction es as [|[k' w] es IH]; simpl; [reflexivity|].
  destruct (String.eqb k' k); auto.
Qed.

Lemma entry_get_names k es :
  entry_get k es = None <-> ~ In k (map fst es).
Proof.
  induction es as [|[k' w] es IH]; simpl; [tauto|].
  destruct (String.eqb k' k) eqn:E.
  - apply String.eqb_eq in E. split; [discriminate|]. intros H. tauto.
  - apply String.eqb_neq in E. tauto.
Qed.
End EntryFacts.

(* ------------------------------------------------------------------ *)
(** ** Physical paths of a store *)

Lemma get_app (p q : path) (d : node) :
  get (p ++ q) d = match get p d with Some n => get q n | None => None end.
Proof.
  revert d. induction p as [|name p IH]; intros d; simpl; [reflexivity|].
  destruct d as [c|es|t]; try reflexivity.
  destruct (entry_get name es); [apply IH|reflexivity].
Qed.

Lemma get_snoc (p : path) (name : string) (d : node) (es : list (string * node)) :
  get p d = Some (Dir es) -> get (p ++ [name]) d = entry_get name es.
Proof.
  intros H. rewrite get_app, H. simpl. destruct (entry_get name es); reflexivity.
Qed.

Lemma get_put (p : path) (n n0 : node) (d : node) :
  get p d = Some n0 -> get p (put p n d) = Some n.
Proof.
  revert d. induction p as [|name p IH]; intros d; simpl; [reflexivity|].
  destruct d as [c|es|t]; try discriminate.
  destruct (entry_get name es) as [child|] eqn:E; [|discriminate].
  intros H. simpl. rewrite entry_get_set_eq. apply (IH _ H).
Qed.

Lemma put_put (p : path) (n n' : node) (d : node) :
  put p n' (put p n d) = put p n' d.
Proof.
  revert d. induction p as [|name p IH]; intros d; simpl; [reflexivity|].
  destruct d as [c|es|t]; try reflexivity.
  destruct (entry_get name es) as [child|] eqn:E; simpl.
  - rewrite entry_get_set_eq, entry_set_set, IH. reflexivity.
  - rewrite E. reflexivity.
Qed.

Lemma put_same (p : path) (n : node) (d : node) :
  get p d = Some n -> put p n d = d.
Proof.
  revert d. induction p as [|name p IH]; intros d; simpl; [congruence|].
  destruct d as [c|es|t]; try reflexivity.
  destruct (entry_get name es) as [child|] eqn:E; [|reflexivity].
  intros H. rewrite (IH _ H), (entry_set_same _ _ _ E). reflexivity.
Qed.

Lemma put_app (p q : path) (n m : node) (d : node) :
  get p d = Some m -> put (p ++ q) n d = put p (put q n m) d.
Proof.
  revert d. induction p as [|name p IH]; intros d; simpl.
  - intros [= ->]. reflexivity.
  - destruct d as [c|es|t]; try discriminate.
    destruct (entry_get name es) as [child|] eqn:E; [|discriminate].
    intros H. rewrite (IH _ H). reflexivity.
Qed.

Lemma modify_app (p q : path) (f : option node -> option node) (m d : node) :
  q <> [] -> get p d = Some m ->
  modify (p ++ q) f d = option_map (fun m' => put p m' d) (modify q f m).
Proof.
  intros Hq. revert d. induction p as [|name p IH]; intros d; simpl.
  - intros [= ->]. destruct (modify q f m); reflexivity.
  - destruct d as [c|es|t]; try discriminate.
    destruct (entry_get name es) as [child|] eqn:E; [|discriminate].
    intros H. destruct (p ++ q) eqn:Epq.
    + destruct p; [|discriminate]. simpl in Epq. contradiction.
    + rewrite (IH _ H). destruct (modify q f m); reflexivity.
Qed.

Lemma modify_snoc (p : path) (name : string) (f : option node -> option node)
    (es : list (string * node)) (d : node) :
  get p d = Some (Dir es) ->
  modify (p ++ [name]) f d
  = option_map (fun c => put p (Dir (entry_set name c es)) d)
               (f (entry_get name es)).
Proof.
  intros H. rewrite (modify_app p [name] f (Dir es)); [|discriminate|exact H].
  simpl. destruct (f (entry_get name es)); reflexivity.
Qed.

Lemma remove_snoc (p : path) (name : string) (es : list (string * node))
    (d : node) :
  get p d = Some (Dir es) ->
  remove (p ++ [name]) d = put p (Dir (entry_remove name es)) d.
Proof.
  revert d. induction p as [|k p IH]; intros d; simpl.
  - intros [= ->]. reflexivity.
  - destruct d as [c|es0|t]; try discriminate.
    destruct (entry_get k es0) as [child|] eqn:E; [|discriminate].
    intros H. rewrite (IH _ H).
    destruct (p ++ [name]) eqn:Ep; [destruct p; discriminate|reflexivity].
Qed.

Lemma remove_app (p q : path) (m d : node) :
  q <> [] -> get p d = Some m -> remove (p ++ q) d = put p (remove q m) d.
Proof.
  intros Hq. revert d. induction p as [|k p IH]; intros d; simpl.
  - intros [= ->]. reflexivity.
  - destruct d as [c|es0|t]; try discriminate.
    destruct (entry_get k es0) as [child|] eqn:E; [|discriminate].
    intros H. rewrite (IH _ H).
    destruct (p ++ q) eqn:Ep; [|reflexivity].
    destruct p; [|discriminate]. simpl in Ep. contradiction.
Qed.

(** A removal below the entry [name] of a directory leaves the other
    entries of the directory as they are. *)
Lemma remove_below_entry (p : path) (name : string) (q : path)
    (es : list (string * node)) (d : node) :
  get p d = Some (Dir es) ->
  exists es',
    remove_below (p ++ [name]) q d = put p (Dir es') d /\
    forall k, k <> name -> entry_get k es' = entry_get k es.
Proof.
  intros Hget. destruct q as [|a q]; simpl.
  - exists es. split; [symmetry; apply (put_same _ _ _ Hget)|reflexivity].
  - rewrite <- app_assoc. simpl.
    rewrite (remove_app p (name :: a :: q) (Dir es)); [|discriminate|exact Hget].
    cbn [remove]. destruct (entry_get name es) as [child|] eqn:E.
    + eexists. split; [reflexivity|].
      intros k Hk. apply entry_get_set_neq. congruence.
    + exists es. split; reflexivity.
Qed.

Lemma remove_partly_entry (p : path) (name : string) (qs : list path)
    (es : list (string * node)) (d : node) :
  get p d = Some (Dir es) ->
  exists es',
    fold_left (fun s q => remove_below (p ++ [name]) q s) qs d
    = put p (Dir es') d /\
    forall k, k <> name -> entry_get k es' = entry_get k es.
Proof.
  revert es d. induction qs as [|q qs IH]; intros es d Hget; simpl.
  - exists es. split; [symmetry; apply (put_same _ _ _ Hget)|reflexivity].
  - destruct (remove_below_entry p name q es d Hget) as (es1 & -> & Hes1).
    destruct (IH es1 (put p (Dir es1) d) (get_put _ _ _ _ Hget))
      as (es2 & -> & Hes2).
    exists es2. split; [apply put_put|].
    intros k Hk. rewrite (Hes2 k Hk). apply (Hes1 k Hk).
Qed.

(* ------------------------------------------------------------------ *)
(** ** Path lookup along real directories *)

Lemma walk_nil (hops : nat) (root : node) (follow : bool) (cur : path) :
  walk hops root follow cur [] = option_map (pair cur) (get cur root).
Proof. destruct hops; reflexivity. Qed.

Lemma walk_cons (hops : nat) (root : node) (follow : bool) (cur : path)
    (seg : string) (rest : list string) :
  plain seg = true ->
  walk hops root follow cur (seg :: rest) =
  match get (cur ++ [seg]) root with
  | Some (Symlink target) =>
      match rest, follow with
      | [], false => Some (cur ++ [seg], Symlink target)
      | _, _ =>
          match hops with
          | O => None
          | S hops' =>
              walk hops' root follow
                   (if startsWith target "/" then [] else cur)
                   (split "/" target ++ rest)
          end
      end
  | Some (Dir es) => walk hops root follow (cur ++ [seg]) rest
  | Some (File c) =>
      match rest with
      | [] => Some (cur ++ [seg], File c)
      | _ => None
      end
  | None => None
  end.
Proof.
  intros H. apply plain_inv in H. destruct H as (H1 & H2 & H3 & _).
  destruct hops; cbv beta iota fix delta [walk];
    rewrite H1, H2, H3; reflexivity.
Qed.

Lemma get_below_leaf (p : path) (m n : node) :
  get p m = Some n -> (forall es, m <> Dir es) -> p = [] /\ n = m.
Proof.
  destruct p as [|name p]; simpl.
  - intros [= ->]. auto.
  - destruct m; try discriminate. intros _ H. exfalso. eapply H. reflexivity.
Qed.

Lemma walk_prefix (hops : nat) (root : node) (follow : bool)
    (pre : path) (rest : list string) (cur : path) (es : list (string * node)) :
  forallb plain pre = true ->
  get (cur ++ pre) root = Some (Dir es) ->
  walk hops root follow cur (pre ++ rest) = walk hops root follow (cur ++ pre) rest.
Proof.
  revert cur. induction pre as [|seg pre IH]; intros cur Hplain Hget; simpl.
  - rewrite app_nil_r. reflexivity.
  - simpl in Hplain. apply andb_true_iff in Hplain. destruct Hplain as [Hseg Hpre].
    rewrite (walk_cons _ _ _ _ _ _ Hseg).
    replace (cur ++ seg :: pre) with ((cur ++ [seg]) ++ pre) in *
      by (rewrite <- app_assoc; reflexivity).
    rewrite get_app in Hget.
    destruct (get (cur ++ [seg]) root) as [m|] eqn:Em; [|discriminate].
    destruct m as [c|es'|t].
    + apply get_below_leaf in Hget; [|discriminate]. destruct Hget; discriminate.
    + apply IH; [exact Hpre|]. rewrite get_app, Em. exact Hget.
    + apply get_below_leaf in Hget; [|discriminate]. destruct Hget; discriminate.
Qed.

(** Lookup of an entry of a real directory. *)
Lemma walk_entry (hops : nat) (root : node) (follow : bool) (dir : path)
    (name : string) (es : list (string * node)) :
  forallb plain dir = true -> plain name = true ->
  get dir root = Some (Dir es) ->
  walk hops root follow [] (dir ++ [name]) =
  match entry_get name es with
  | Some (Symlink target) =>
      if follow then
        match hops with
        | O => None
        | S hops' =>
            walk hops' root follow
                 (if startsWith target "/" then [] else dir)
                 (split "/" target ++ [])
        end
      else Some (dir ++ [name], Symlink target)
  | Some n => Some (dir ++ [name], n)
  | None => None
  end.
Proof.
  intros Hdir Hname Hget.
  rewrite (walk_prefix _ _ _ dir [name] [] es Hdir Hget). simpl.
  rewrite (walk_cons _ _ _ _ _ _ Hname), (get_snoc _ _ _ _ Hget).
  destruct (entry_get name es) as [[c|es'|t]|] eqn:E; try reflexivity.
  rewrite walk_nil, (get_snoc _ name _ _ Hget), E. reflexivity.
Qed.

Lemma stat_entry (root : node) (dir : path) (name : string)
    (es : list (string * node)) (n : node) :
  forallb plain dir = true -> plain name = true ->
  get dir root = Some (Dir es) ->
  entry_get name es = Some n -> is_symlink n = false ->
  walk MAXSYMLINKS root true [] (dir ++ [name]) = Some (dir ++ [name], n).
Proof.
  intros Hdir Hname Hget E Hn.
  rewrite (walk_entry _ _ _ _ _ _ Hdir Hname Hget), E.
  destruct n; [reflexivity|reflexivity|discriminate].
Qed.

Lemma pathExists_absent (root : node) (dir : path) (name : string)
    (es : list (string * node)) :
  forallb plain dir = true -> plain name = true ->
  get dir root = Some (Dir es) ->
  entry_get name es = None ->
  pathExists root (dir ++ [name]) = false.
Proof.
  intros Hdir Hname Hget E. unfold pathExists, stat.
  rewrite (walk_entry _ _ _ _ _ _ Hdir Hname Hget), E. reflexivity.
Qed.

Lemma pathExists_entry (root : node) (dir : path) (name : string)
    (es : list (string * node)) :
  forallb plain dir = true -> plain name = true ->
  get dir root = Some (Dir es) ->
  (forall t, entry_get name es <> Some (Symlink t)) ->
  pathExists root (dir ++ [name])
  = match entry_get name es with Some _ => true | None => false end.
Proof.
  intros Hdir Hname Hget Hnl. unfold pathExists, stat.
  rewrite (walk_entry _ _ _ _ _ _ Hdir Hname Hget).
  destruct (entry_get name es) as [[c|es'|t]|]; try reflexivity.
  exfalso. apply (Hnl t). reflexivity.
Qed.

(* ------------------------------------------------------------------ *)
(** ** The manifest configurator *)

Lemma mutate_manifest_object (packageManager projectName : string)
    (m : list (string * json)) :
  exists m',
    mutate_manifest packageManager projectName (JObj m) = Some (JObj m') /\
    entry_get "name" m' = Some (JStr projectName) /\
    (packageManager = "npm" -> entry_get "packageManager" m' = None) /\
    (packageManager = "yarn" ->
     entry_get "packageManager" m' = Some (JStr "yarn@4.0.0") /\
     entry_get "workspaces" m' = Some (JArr [JStr "apps/*"; JStr "packages/*"])) /\
    (packageManager <> "npm" -> packageManager <> "yarn" ->
     entry_get "packageManager" m' = Some (JStr "pnpm@9.0.0")).
Proof.
  unfold mutate_manifest. simpl.
  destruct (String.eqb packageManager "npm") eqn:Enpm;
    [|destruct (String.eqb packageManager "yarn") eqn:Eyarn]; simpl;
    eexists; (split; [reflexivity|]).
  - apply String.eqb_eq in Enpm. subst.
    rewrite entry_get_remove_neq, entry_get_set_eq, entry_get_remove_eq
      by discriminate.
    repeat split; try discriminate; congruence.
  - apply String.eqb_eq in Eyarn. subst.
    rewrite !entry_get_set_eq.
    rewrite !(entry_get_set_neq "workspaces") by discriminate.
    rewrite !(entry_get_set_neq "packageManager") by discriminate.
    rewrite !entry_get_set_eq.
    repeat split; try discriminate; congruence.
  - apply String.eqb_neq in Enpm, Eyarn.
    rewrite (entry_get_set_neq "packageManager") by discriminate.
    rewrite !entry_get_set_eq.
    repeat split; try reflexivity; intros; contradiction.
Qed.

(** Mutating a mutated manifest changes nothing. *)
Lemma mutate_manifest_twice (packageManager projectName : string)
    (j j' : json) :
  mutate_manifest packageManager projectName j = Some j' ->
  mutate_manifest packageManager projectName j' = Some j'.
Proof.
  unfold mutate_manifest.
  destruct j as [| | | |items|m]; simpl; try discriminate.
  - destruct (String.eqb packageManager "npm");
      [|destruct (String.eqb packageManager "yarn")]; simpl;
      intros [= <-]; reflexivity.
  - destruct (String.eqb packageManager "npm") eqn:Enpm;
      [|destruct (String.eqb packageManager "yarn") eqn:Eyarn]; simpl;
      intros [= <-]; simpl; rewrite ?Enpm, ?Eyarn; simpl.
    + rewrite (entry_set_same "name" (JStr projectName)).
      * rewrite (entry_remove_absent "packageManager")
          by apply entry_get_remove_eq. reflexivity.
      * rewrite entry_get_remove_neq by discriminate. apply entry_get_set_eq.
    + rewrite (entry_set_same "name" (JStr projectName)).
      * rewrite (entry_set_same "packageManager" (JStr "yarn@4.0.0")).
        -- rewrite entry_set_set. reflexivity.
        -- rewrite entry_get_set_neq by discriminate. apply entry_get_set_eq.
      * rewrite !entry_get_set_neq by discriminate. apply entry_get_set_eq.
    + rewrite (entry_set_same "name" (JStr projectName)).
      * rewrite entry_set_set. reflexivity.
      * rewrite entry_get_set_neq by discriminate. apply entry_get_set_eq.
Qed.

Section Configured.
(** The project directory is a real directory of the store. *)
Variables (targetDir : path) (d : node) (es : list (string * node)).
Hypothesis Hplain : forallb plain targetDir = true.
Hypothesis Hget : get targetDir d = Some (Dir es).

Lemma manifest_step (env : faults) (packageManager projectName : string) :
  (forall t, entry_get "package.json" es <> Some (Symlink t)) ->
  configure_manifest env targetDir packageManager projectName d =
  match entry_get "package.json" es with
  | None => Done d
  | Some (File (JsonText packageJson)) =>
      if readJson_fails env then Threw d
      else match mutate_manifest packageManager projectName packageJson with
           | None => Threw d
           | Some packageJson' =>
               if writeJson_fails env then
                 match torn (writeJson_torn env) packageJson' with
                 | None => Threw d
                 | Some c =>
                     Threw (put targetDir
                              (Dir (entry_set "package.json" (File c) es)) d)
                 end
               else Done (put targetDir
                            (Dir (entry_set "package.json"
                                    (File (JsonText packageJson')) es)) d)
           end
  | Some _ => Threw d
  end.
Proof.
  intros Hnl. unfold configure_manifest.
  rewrite (path_join_plain targetDir "package.json" eq_refl).
  rewrite (pathExists_entry d targetDir "package.json" es Hplain eq_refl Hget Hnl).
  unfold readJson, writeJson, writeFile, stat.
  rewrite (walk_entry MAXSYMLINKS d true targetDir "package.json" es
             Hplain eq_refl Hget).
  destruct (entry_get "package.json" es) as [[c|es'|t]|] eqn:E; simpl.
  - destruct c as [bytes|packageJson]; simpl.
    + destruct (readJson_fails env); reflexivity.
    + destruct (readJson_fails env); [reflexivity|].
      destruct (mutate_manifest packageManager projectName packageJson);
        [|reflexivity].
      destruct (writeJson_fails env).
      * destruct (torn (writeJson_torn env) j) as [c|]; [|reflexivity].
        rewrite (modify_snoc _ _ _ _ _ Hget). reflexivity.
      * rewrite (modify_snoc _ _ _ _ _ Hget). reflexivity.
  - destruct (readJson_fails env); reflexivity.
  - exfalso. apply (Hnl t). reflexivity.
  - reflexivity.
Qed.

Lemma workspace_step (env : faults) (packageManager : string) :
  configure_workspace env targetDir packageManager d =
  if String.eqb packageManager "npm" || String.eqb packageManager "yarn" then
    if pathExists d (targetDir ++ ["pnpm-workspace.yaml"]) then
      if remove_fails env then
        Threw (fold_left
                 (fun s q => remove_below (targetDir ++ ["pnpm-workspace.yaml"]) q s)
                 (remove_partial env) d)
      else Done (put targetDir (Dir (entry_remove "pnpm-workspace.yaml" es)) d)
    else Done d
  else Done d.
Proof.
  unfold configure_workspace, fs_remove.
  rewrite (path_join_plain targetDir "pnpm-workspace.yaml" eq_refl).
  rewrite (remove_snoc _ _ _ _ Hget).
  destruct (String.eqb packageManager "npm"),
           (String.eqb packageManager "yarn"); cbn [orb]; reflexivity.
Qed.
End Configured.

Section ConfiguredObject.
Variables (targetDir : path) (d : node) (es : list (string * node)).
Variables (packageManager projectName : string).
Hypothesis Hplain : forallb plain targetDir = true.
Hypothesis Hget : get targetDir d = Some (Dir es).

(** What a run without I/O failure leaves when the manifest is a regular
    file holding [packageJson] and its mutation is [packageJson']. *)
Lemma configure_run (packageJson packageJson' : json) :
  entry_get "package.json" es = Some (File (JsonText packageJson)) ->
  mutate_manifest packageManager projectName packageJson = Some packageJson' ->
  exists es',
    configurePackageManager no_faults targetDir packageManager projectName d
    = Done (put targetDir (Dir es') d) /\
    get targetDir (put targetDir (Dir es') d) = Some (Dir es') /\
    entry_get "package.json" es' = Some (File (JsonText packageJson')) /\
    (String.eqb packageManager "npm" || String.eqb packageManager "yarn" = true ->
     pathExists (put targetDir (Dir es') d)
                (targetDir ++ ["pnpm-workspace.yaml"]) = false) /\
    (String.eqb packageManager "npm" || String.eqb packageManager "yarn" = false ->
     entry_get "pnpm-workspace.yaml" es' = entry_get "pnpm-workspace.yaml" es).
Proof.
  intros E Hmut. unfold configurePackageManager.
  rewrite (manifest_step targetDir d es Hplain Hget)
    by (intros t; rewrite E; discriminate).
  rewrite E, Hmut. cbn [readJson_fails writeJson_fails no_faults].
  set (es1 := entry_set "package.json" (File (JsonText packageJson')) es).
  set (d1 := put targetDir (Dir es1) d).
  assert (Hget1 : get targetDir d1 = Some (Dir es1))
    by (apply (get_put _ _ _ _ Hget)).
  rewrite (workspace_step targetDir d1 es1 Hget1).
  assert (Hpkg1 : entry_get "package.json" es1
                  = Some (File (JsonText packageJson')))
    by apply entry_get_set_eq.
  destruct (String.eqb packageManager "npm" || String.eqb packageManager "yarn").
  - destruct (pathExists d1 (targetDir ++ ["pnpm-workspace.yaml"])) eqn:Ews.
    + cbn [remove_fails no_faults]. unfold d1. rewrite put_put.
      exists (entry_remove "pnpm-workspace.yaml" es1).
      assert (Hget2 : get targetDir
                (put targetDir (Dir (entry_remove "pnpm-workspace.yaml" es1)) d)
              = Some (Dir (entry_remove "pnpm-workspace.yaml" es1)))
        by (apply (get_put _ _ _ _ Hget)).
      repeat split; try assumption; try reflexivity; try discriminate.
      * rewrite entry_get_remove_neq by discriminate. exact Hpkg1.
      * intros _.
        apply (pathExists_absent _ targetDir "pnpm-workspace.yaml" _
                 Hplain eq_refl Hget2).
        apply entry_get_remove_eq.
    + exists es1.
      repeat split; try assumption; try reflexivity; try discriminate.
      intros _. exact Ews.
  - exists es1.
    repeat split; try assumption; try reflexivity; try discriminate.
    intros _. unfold es1. apply entry_get_set_neq. discriminate.
Qed.
End ConfiguredObject.

Lemma readJson_entry (d : node) (dir : path) (name : string)
    (es : list (string * node)) (value : json) :
  forallb plain dir = true -> plain name = true ->
  get dir d = Some (Dir es) ->
  entry_get name es = Some (File (JsonText value)) ->
  readJson no_faults d (path_join dir name) = Some value.
Proof.
  intros Hdir Hname Hget E. unfold readJson, stat.
  rewrite (path_join_plain dir name Hname).
  rewrite (stat_entry d dir name es _ Hdir Hname Hget E eq_refl).
  reflexivity.
Qed.

Lemma eqb_or_npm_yarn (packageManager : string) :
  String.eqb packageManager "npm" || String.eqb packageManager "yarn" = false
  <-> packageManager <> "npm" /\ packageManager <> "yarn".
Proof.
  rewrite orb_false_iff, !String.eqb_neq. tauto.
Qed.

(** C4: when the root manifest exists (a regular file holding an object),
    after the configurator its name is the project name; for npm it has no
    [packageManager] field and [pnpm-workspace.yaml] is absent; for yarn
    [packageManager] is ["yarn@4.0.0"], [workspaces] is
    [["apps/*", "packages/*"]] and [pnpm-workspace.yaml] is absent; for pnpm
    [packageManager] is ["pnpm@9.0.0"] and [pnpm-workspace.yaml] is as it
    was shipped.  The run ends normally whether or not
    [pnpm-workspace.yaml] was there. *)
Theorem C4_configured (targetDir : path) (packageManager projectName : string)
    (d : node) (es : list (string * node)) (m : list (string * json)) :
  forallb plain targetDir = true ->
  get targetDir d = Some (Dir es) ->
  entry_get "package.json" es = Some (File (JsonText (JObj m))) ->
  exists d' es' m',
    configurePackageManager no_faults targetDir packageManager projectName d
    = Done d' /\
    get targetDir d' = Some (Dir es') /\
    readJson no_faults d' (path_join targetDir "package.json") = Some (JObj m') /\
    entry_get "name" m' = Some (JStr projectName) /\
    (packageManager = "npm" ->
     entry_get "packageManager" m' = None /\
     pathExists d' (path_join targetDir "pnpm-workspace.yaml") = false) /\
    (packageManager = "yarn" ->
     entry_get "packageManager" m' = Some (JStr "yarn@4.0.0") /\
     entry_get "workspaces" m' = Some (JArr [JStr "apps/*"; JStr "packages/*"]) /\
     pathExists d' (path_join targetDir "pnpm-workspace.yaml") = false) /\
    (packageManager = "pnpm" ->
     entry_get "packageManager" m' = Some (JStr "pnpm@9.0.0") /\
     entry_get "pnpm-workspace.yaml" es' = entry_get "pnpm-workspace.yaml" es).
Proof.
  intros Hplain Hget E.
  destruct (mutate_manifest_object packageManager projectName m)
    as (m' & Hmut & Hname & Hnpm & Hyarn & Hpnpm).
  destruct (configure_run targetDir d es packageManager projectName
              Hplain Hget (JObj m) (JObj m') E Hmut)
    as (es' & Hrun & Hget' & Hpkg & Hgone & Hkept).
  exists (put targetDir (Dir es') d), es', m'.
  rewrite (path_join_plain targetDir "pnpm-workspace.yaml" eq_refl).
  split; [exact Hrun|]. split; [exact Hget'|].
  split; [exact (readJson_entry _ targetDir "package.json" _ _
                   Hplain eq_refl Hget' Hpkg)|].
  split; [exact Hname|].
  split; [|split].
  - intros ->. split; [apply Hnpm; reflexivity|apply Hgone; reflexivity].
  - intros ->. destruct (Hyarn eq_refl). repeat split; try assumption.
    apply Hgone; reflexivity.
  - intros ->. split; [apply Hpnpm; discriminate|apply Hkept; reflexivity].
Qed.

Lemma C4_configured_witness :
  exists d' es' m',
    configurePackageManager no_faults ["home"; "u"; "demo"] "yarn" "demo"
      (Dir [("home", Dir [("u", Dir [("demo", Dir [
         ("package.json", File (JsonText (JObj [("name", JStr "template")])));
         ("pnpm-workspace.yaml", File (Text "packages:"))])])])])
    = Done d' /\
    get ["home"; "u"; "demo"] d' = Some (Dir es') /\
    readJson no_faults d' (path_join ["home"; "u"; "demo"] "package.json")
    = Some (JObj m') /\
    entry_get "name" m' = Some (JStr "demo") /\
    ("yarn" = "npm" ->
     entry_get "packageManager" m' = None /\
     pathExists d' (path_join ["home"; "u"; "demo"] "pnpm-workspace.yaml") = false) /\
    ("yarn" = "yarn" ->
     entry_get "packageManager" m' = Some (JStr "yarn@4.0.0") /\
     entry_get "workspaces" m' = Some (JArr [JStr "apps/*"; JStr "packages/*"]) /\
     pathExists d' (path_join ["home"; "u"; "demo"] "pnpm-workspace.yaml") = false) /\
    ("yarn" = "pnpm" ->
     entry_get "packageManager" m' = Some (JStr "pnpm@9.0.0") /\
     entry_get "pnpm-workspace.yaml" es'
     = entry_get "pnpm-workspace.yaml"
         [("package.json", File (JsonText (JObj [("name", JStr "template")])));
          ("pnpm-workspace.yaml", File (Text "packages:"))]).
Proof.
  apply (C4_configured ["home"; "u"; "demo"] "yarn" "demo" _ _
           [("name", JStr "template")]); reflexivity.
Defined.

Lemma split_without (sep : ascii) (s : string) :
  includes s sep = false -> split sep s = [s].
Proof.
  induction s as [|a s IH]; simpl; intros H; [reflexivity|].
  apply orb_false_iff in H. destruct H as [Ha Hs].
  rewrite Ha, (IH Hs). reflexivity.
Qed.

Lemma package_manager_argument (name value : string) (dir : path)
    (answer1 answer2 : string) :
  is_packageManagerArg name = false ->
  includes value "=" = false ->
  chosen_packageManager
    {| args := [name; ("--package-manager=" ++ value)%string]; cwd := dir;
       answer_projectName := answer1; answer_packageManager := answer2 |}
  = value.
Proof.
  intros Hname Hvalue. unfold chosen_packageManager. cbn [args find].
  rewrite Hname.
  assert (Harg : is_packageManagerArg ("--package-manager=" ++ value)%string
                 = true) by reflexivity.
  assert (Hsplit : split "=" ("--package-manager=" ++ value)%string
                   = "--package-manager" :: split "=" value).
  { cbn. destruct (split "=" value); reflexivity. }
  rewrite Harg. cbv beta iota.
  rewrite Hsplit, (split_without _ _ Hvalue). reflexivity.
Qed.

(** C10: with any package manager string other than ["npm"] and ["yarn"]
    the configurator takes the last branch: the manifest's [packageManager]
    becomes ["pnpm@9.0.0"] and [pnpm-workspace.yaml] stays as it is; the
    argument [--package-manager=<value>] hands such a [<value>] to it. *)
Theorem C10_default_branch :
  (forall (targetDir : path) (packageManager projectName : string)
          (d : node) (es : list (string * node)) (m : list (string * json)),
      packageManager <> "npm" -> packageManager <> "yarn" ->
      forallb plain targetDir = true ->
      get targetDir d = Some (Dir es) ->
      entry_get "package.json" es = Some (File (JsonText (JObj m))) ->
      exists d' es' m',
        configurePackageManager no_faults targetDir packageManager projectName d
        = Done d' /\
        get targetDir d' = Some (Dir es') /\
        readJson no_faults d' (path_join targetDir "package.json")
        = Some (JObj m') /\
        entry_get "packageManager" m' = Some (JStr "pnpm@9.0.0") /\
        entry_get "pnpm-workspace.yaml" es'
        = entry_get "pnpm-workspace.yaml" es) /\
  (forall (name value : string) (dir : path) (answer1 answer2 : string),
      is_packageManagerArg name = false ->
      includes value "=" = false ->
      chosen_packageManager
        {| args := [name; ("--package-manager=" ++ value)%string]; cwd := dir;
           answer_projectName := answer1; answer_packageManager := answer2 |}
      = value).
Proof.
  split; [|exact package_manager_argument].
  intros targetDir packageManager projectName d es m Hnpm Hyarn Hplain Hget E.
  destruct (mutate_manifest_object packageManager projectName m)
    as (m' & Hmut & _ & _ & _ & Hpnpm).
  destruct (configure_run targetDir d es packageManager projectName
              Hplain Hget (JObj m) (JObj m') E Hmut)
    as (es' & Hrun & Hget' & Hpkg & _ & Hkept).
  exists (put targetDir (Dir es') d), es', m'.
  split; [exact Hrun|]. split; [exact Hget'|].
  split; [exact (readJson_entry _ targetDir "package.json" _ _
                   Hplain eq_refl Hget' Hpkg)|].
  split; [exact (Hpnpm Hnpm Hyarn)|].
  apply Hkept. apply eqb_or_npm_yarn. split; assumption.
Qed.

Lemma C10_default_branch_witness :
  (exists d' es' m',
      configurePackageManager no_faults ["home"; "u"; "demo"] "bun" "demo"
        (Dir [("home", Dir [("u", Dir [("demo", Dir [
           ("package.json", File (JsonText (JObj [("name", JStr "template")])));
           ("pnpm-workspace.yaml", File (Text "packages:"))])])])])
      = Done d' /\
      get ["home"; "u"; "demo"] d' = Some (Dir es') /\
      readJson no_faults d' (path_join ["home"; "u"; "demo"] "package.json")
      = Some (JObj m') /\
      entry_get "packageManager" m' = Some (JStr "pnpm@9.0.0") /\
      entry_get "pnpm-workspace.yaml" es'
      = entry_get "pnpm-workspace.yaml"
          [("package.json", File (JsonText (JObj [("name", JStr "template")])));
           ("pnpm-workspace.yaml", File (Text "packages:"))]) /\
  chosen_packageManager
    {| args := ["demo"; "--package-manager=bun"]; cwd := ["home"; "u"];
       answer_projectName := EmptyString; answer_packageManager := EmptyString |}
  = "bun".
Proof.
  split.
  - apply (proj1 C10_default_branch ["home"; "u"; "demo"] "bun" "demo" _ _
             [("name", JStr "template")]);
      try discriminate; reflexivity.
  - apply (proj2 C10_default_branch "demo" "bun" ["home"; "u"] EmptyString EmptyString);
      reflexivity.
Defined.

Section Rerun.
Variables (targetDir : path) (packageManager projectName : string).
Hypothesis Hplain : forallb plain targetDir = true.

(** A store the configurator leaves as it is. *)
Lemma configure_stable (d1 : node) (es1 : list (string * node)) :
  get targetDir d1 = Some (Dir es1) ->
  (entry_get "package.json" es1 = None \/
   exists j, entry_get "package.json" es1 = Some (File (JsonText j)) /\
             mutate_manifest packageManager projectName j = Some j) ->
  (String.eqb packageManager "npm" || String.eqb packageManager "yarn" = true ->
   pathExists d1 (targetDir ++ ["pnpm-workspace.yaml"]) = false) ->
  configurePackageManager no_faults targetDir packageManager projectName d1
  = Done d1.
Proof.
  intros Hget Hpkg Hws. unfold configurePackageManager.
  rewrite (manifest_step targetDir d1 es1 Hplain Hget)
    by (intros t; destruct Hpkg as [E|(j & E & _)]; rewrite E; discriminate).
  assert (Hstep : configure_workspace no_faults targetDir packageManager d1
                  = Done d1).
  { rewrite (workspace_step targetDir d1 es1 Hget).
    destruct (String.eqb packageManager "npm" || String.eqb packageManager "yarn");
      [rewrite Hws|]; reflexivity. }
  destruct Hpkg as [E|(j & E & Hmut)]; rewrite E.
  - exact Hstep.
  - rewrite Hmut. cbn [readJson_fails writeJson_fails no_faults].
    rewrite (entry_set_same _ _ _ E), (put_same _ _ _ Hget). exact Hstep.
Qed.
End Rerun.

(** C5: under a run without I/O failure the configurator is idempotent: run
    on the store it has left, it ends the same way and leaves that store as
    it is, manifest and [pnpm-workspace.yaml] alike; and the manifest it
    leaves is [mutate_manifest] of the manifest it found, a function of the
    manifest, the package manager and the project name. *)
Theorem C5_idempotent (targetDir : path) (packageManager projectName : string)
    (d : node) (es : list (string * node)) :
  forallb plain targetDir = true ->
  get targetDir d = Some (Dir es) ->
  (forall t, entry_get "package.json" es <> Some (Symlink t)) ->
  (exists d1,
      (configurePackageManager no_faults targetDir packageManager projectName d
       = Done d1 \/
       configurePackageManager no_faults targetDir packageManager projectName d
       = Threw d1) /\
      configurePackageManager no_faults targetDir packageManager projectName d1
      = configurePackageManager no_faults targetDir packageManager projectName d) /\
  (forall M M',
      entry_get "package.json" es = Some (File (JsonText M)) ->
      mutate_manifest packageManager projectName M = Some M' ->
      exists d1 es1,
        configurePackageManager no_faults targetDir packageManager projectName d
        = Done d1 /\
        get targetDir d1 = Some (Dir es1) /\
        entry_get "package.json" es1 = Some (File (JsonText M'))).
Proof.
  intros Hplain Hget Hnl.
  pose proof (manifest_step targetDir d es Hplain Hget no_faults
                packageManager projectName Hnl) as Hstep.
  split.
  - assert (Hthrew :
              configure_manifest no_faults targetDir packageManager projectName d
              = Threw d ->
              exists d1,
                (configurePackageManager no_faults targetDir packageManager
                   projectName d = Done d1 \/
                 configurePackageManager no_faults targetDir packageManager
                   projectName d = Threw d1) /\
                configurePackageManager no_faults targetDir packageManager
                  projectName d1
                = configurePackageManager no_faults targetDir packageManager
                    projectName d).
    { intros H. exists d. split; [right|reflexivity].
      unfold configurePackageManager. rewrite H. reflexivity. }
    destruct (entry_get "package.json" es) as [[[bytes|M]|es0|t]|] eqn:E.
    + apply Hthrew. exact Hstep.
    + destruct (mutate_manifest packageManager projectName M) as [M'|] eqn:Hmut.
      * destruct (configure_run targetDir d es packageManager projectName
                    Hplain Hget M M' E Hmut)
          as (es' & Hrun & Hget' & Hpkg & Hgone & _).
        exists (put targetDir (Dir es') d). rewrite Hrun.
        split; [left; reflexivity|].
        apply (configure_stable targetDir packageManager projectName Hplain
                 _ es' Hget'); [|exact Hgone].
        right. exists M'. split; [exact Hpkg|].
        exact (mutate_manifest_twice _ _ _ _ Hmut).
      * apply Hthrew. exact Hstep.
    + apply Hthrew. exact Hstep.
    + exfalso. apply (Hnl t). reflexivity.
    + clear Hthrew.
      assert (Hfirst :
                configurePackageManager no_faults targetDir packageManager
                  projectName d
                = configure_workspace no_faults targetDir packageManager d).
      { unfold configurePackageManager. rewrite Hstep. reflexivity. }
      rewrite Hfirst, (workspace_step targetDir d es Hget).
      destruct (String.eqb packageManager "npm" || String.eqb packageManager "yarn")
        eqn:Epm.
      * destruct (pathExists d (targetDir ++ ["pnpm-workspace.yaml"])) eqn:Ews.
        -- cbn [remove_fails no_faults].
           set (es' := entry_remove "pnpm-workspace.yaml" es).
           assert (Hget' : get targetDir (put targetDir (Dir es') d)
                           = Some (Dir es')) by (apply (get_put _ _ _ _ Hget)).
           exists (put targetDir (Dir es') d). split; [left; reflexivity|].
           apply (configure_stable targetDir packageManager projectName Hplain
                    _ es' Hget').
           ++ left. unfold es'. rewrite entry_get_remove_neq by discriminate.
              exact E.
           ++ intros _.
              apply (pathExists_absent _ targetDir "pnpm-workspace.yaml" _
                       Hplain eq_refl Hget').
              apply entry_get_remove_eq.
        -- exists d. split; [left; reflexivity|].
           apply (configure_stable targetDir packageManager projectName Hplain
                    _ es Hget); [left; exact E|intros _; exact Ews].
      * exists d. split; [left; reflexivity|].
        apply (configure_stable targetDir packageManager projectName Hplain
                 _ es Hget); [left; exact E|rewrite Epm; discriminate].
  - intros M M' E Hmut.
    destruct (configure_run targetDir d es packageManager projectName
                Hplain Hget M M' E Hmut)
      as (es' & Hrun & Hget' & Hpkg & _).
    exists (put targetDir (Dir es') d), es'. auto.
Qed.

Lemma C5_idempotent_witness :
  exists d1,
    (configurePackageManager no_faults ["home"; "u"; "demo"] "npm" "demo"
       sample_project = Done d1 \/
     configurePackageManager no_faults ["home"; "u"; "demo"] "npm" "demo"
       sample_project = Threw d1) /\
    configurePackageManager no_faults ["home"; "u"; "demo"] "npm" "demo" d1
    = configurePackageManager no_faults ["home"; "u"; "demo"] "npm" "demo"
        sample_project.
Proof.
  apply (C5_idempotent ["home"; "u"; "demo"] "npm" "demo" sample_project
           sample_entries); try reflexivity.
  intros t. discriminate.
Defined.

(** C6, as claimed, fails at a write that is cut short: [fs.writeJson]
    opens the manifest, which truncates it, and the failure after the first
    character leaves a manifest that is neither the one found nor the one
    with the mutations applied. *)
Example C6_counterexample :
  exists d',
    configurePackageManager torn_write_fault ["home"; "u"; "demo"] "yarn" "demo"
      sample_project = Threw d' /\
    get ["home"; "u"; "demo"; "package.json"] sample_project
    = Some (File (JsonText (JObj [("name", JStr "template")]))) /\
    mutate_manifest "yarn" "demo" (JObj [("name", JStr "template")])
    = Some (JObj [("name", JStr "demo");
                  ("packageManager", JStr "yarn@4.0.0");
                  ("workspaces", JArr [JStr "apps/*"; JStr "packages/*"])]) /\
    get ["home"; "u"; "demo"; "package.json"] d' = Some (File (Text "{")).
Proof.
  eexists. repeat split; vm_compute; reflexivity.
Qed.

(** C6, amended: when the read or the parse of the manifest fails, or the
    mutation of the value read, the configurator rejects at once, with the
    store as it found it and the workspace step not run; when the write
    fails it rejects at once, the workspace step not run, and the manifest
    is as the write left it: untouched, truncated to a part of the new text,
    or the whole new text.  However a run ends, faults included, the
    manifest it leaves is the manifest it found, or that manifest with the
    whole mutation applied, or, after a failing write only, a truncated text
    that is no JSON document; so a manifest that parses is the one found or
    the one with every mutation applied. *)
Theorem C6_written_once (env : faults) (targetDir : path)
    (packageManager projectName : string) (d : node) :
  (pathExists d (path_join targetDir "package.json") = true ->
   readJson env d (path_join targetDir "package.json") = None ->
   configurePackageManager env targetDir packageManager projectName d
   = Threw d) /\
  (forall packageJson,
      pathExists d (path_join targetDir "package.json") = true ->
      readJson env d (path_join targetDir "package.json") = Some packageJson ->
      mutate_manifest packageManager projectName packageJson = None ->
      configurePackageManager env targetDir packageManager projectName d
      = Threw d) /\
  (forall es packageJson packageJson',
      forallb plain targetDir = true ->
      get targetDir d = Some (Dir es) ->
      entry_get "package.json" es = Some (File (JsonText packageJson)) ->
      readJson_fails env = false ->
      mutate_manifest packageManager projectName packageJson
      = Some packageJson' ->
      writeJson_fails env = true ->
      configurePackageManager env targetDir packageManager projectName d
      = Threw match torn (writeJson_torn env) packageJson' with
              | None => d
              | Some c =>
                  put targetDir (Dir (entry_set "package.json" (File c) es)) d
              end) /\
  (forall es d',
      forallb plain targetDir = true ->
      get targetDir d = Some (Dir es) ->
      (forall t, entry_get "package.json" es <> Some (Symlink t)) ->
      configurePackageManager env targetDir packageManager projectName d
      = Done d' \/
      configurePackageManager env targetDir packageManager projectName d
      = Threw d' ->
      exists es',
        get targetDir d' = Some (Dir es') /\
        (entry_get "package.json" es' = entry_get "package.json" es \/
         (exists packageJson packageJson',
             entry_get "package.json" es = Some (File (JsonText packageJson)) /\
             mutate_manifest packageManager projectName packageJson
             = Some packageJson' /\
             entry_get "package.json" es'
             = Some (File (JsonText packageJson'))) \/
         (exists bytes,
             writeJson_fails env = true /\
             writeJson_torn env = Cut bytes /\
             configurePackageManager env targetDir packageManager projectName d
             = Threw d' /\
             entry_get "package.json" es' = Some (File (Text bytes)))) /\
        (forall value,
            entry_get "package.json" es' = Some (File (JsonText value)) ->
            entry_get "package.json" es = Some (File (JsonText value)) \/
            exists packageJson,
              entry_get "package.json" es = Some (File (JsonText packageJson)) /\
              mutate_manifest packageManager projectName packageJson
              = Some value)).
Proof.
  split; [|split; [|split]].
  - intros Hex Hread. unfold configurePackageManager, configure_manifest.
    rewrite Hex, Hread. reflexivity.
  - intros j Hex Hread Hmut. unfold configurePackageManager, configure_manifest.
    rewrite Hex, Hread, Hmut. reflexivity.
  - intros es j j' Hplain Hget E Hread Hmut Hwrite.
    unfold configurePackageManager.
    rewrite (manifest_step targetDir d es Hplain Hget)
      by (intros t; rewrite E; discriminate).
    rewrite E, Hread, Hmut, Hwrite.
    destruct (torn (writeJson_torn env) j'); reflexivity.
  - intros es d' Hplain Hget Hnl Hrun.
    assert (Hshape : exists es',
      get targetDir d' = Some (Dir es') /\
      (entry_get "package.json" es' = entry_get "package.json" es \/
       (exists packageJson packageJson',
           entry_get "package.json" es = Some (File (JsonText packageJson)) /\
           mutate_manifest packageManager projectName packageJson
           = Some packageJson' /\
           entry_get "package.json" es'
           = Some (File (JsonText packageJson'))) \/
       (exists bytes,
           writeJson_fails env = true /\
           writeJson_torn env = Cut bytes /\
           configurePackageManager env targetDir packageManager projectName d
           = Threw d' /\
           entry_get "package.json" es' = Some (File (Text bytes))))).
    { pose proof Hrun as Hrun0.
      unfold configurePackageManager in Hrun.
      pose proof (manifest_step targetDir d es Hplain Hget env
                    packageManager projectName Hnl) as Hstep.
      destruct (configure_manifest env targetDir packageManager projectName d)
        as [d1|d1|] eqn:Hman.
      + (* the manifest step ended normally *)
        assert (Hd1 : exists es1,
                   get targetDir d1 = Some (Dir es1) /\
                   (entry_get "package.json" es1 = entry_get "package.json" es \/
                    exists packageJson packageJson',
                      entry_get "package.json" es
                      = Some (File (JsonText packageJson)) /\
                      mutate_manifest packageManager projectName packageJson
                      = Some packageJson' /\
                      entry_get "package.json" es1
                      = Some (File (JsonText packageJson')))).
        { destruct (entry_get "package.json" es) as [[[bytes|M]|es0|t]|] eqn:E;
            try discriminate.
          - destruct (readJson_fails env); [discriminate|].
            destruct (mutate_manifest packageManager projectName M) as [M'|]
              eqn:Hmut; [|discriminate].
            destruct (writeJson_fails env);
              [destruct (torn (writeJson_torn env) M'); discriminate|].
            injection Hstep as ->.
            eexists. split; [apply (get_put _ _ _ _ Hget)|].
            right. exists M, M'.
            repeat split; try exact Hmut; apply entry_get_set_eq.
          - injection Hstep as ->. exists es. split; [exact Hget|left; exact E]. }
        destruct Hd1 as (es1 & Hget1 & Hpkg1).
        rewrite (workspace_step targetDir d1 es1 Hget1) in Hrun.
        assert (Hsame : exists es', get targetDir d1 = Some (Dir es') /\
                  entry_get "package.json" es' = entry_get "package.json" es1)
          by (exists es1; auto).
        assert (Hremoved : exists es',
                  get targetDir
                      (put targetDir (Dir (entry_remove "pnpm-workspace.yaml" es1)) d1)
                  = Some (Dir es') /\
                  entry_get "package.json" es' = entry_get "package.json" es1).
        { eexists. split; [apply (get_put _ _ _ _ Hget1)|].
          apply entry_get_remove_neq. discriminate. }
        assert (Hpartly : exists es',
                  get targetDir
                      (fold_left
                         (fun s q =>
                            remove_below (targetDir ++ ["pnpm-workspace.yaml"]) q s)
                         (remove_partial env) d1)
                  = Some (Dir es') /\
                  entry_get "package.json" es' = entry_get "package.json" es1).
        { destruct (remove_partly_entry targetDir "pnpm-workspace.yaml"
                      (remove_partial env) es1 d1 Hget1) as (es2 & -> & Hes2).
          exists es2. split; [apply (get_put _ _ _ _ Hget1)|].
          apply Hes2. discriminate. }
        assert (Hend : exists es', get targetDir d' = Some (Dir es') /\
                  entry_get "package.json" es' = entry_get "package.json" es1).
        { destruct (String.eqb packageManager "npm" || String.eqb packageManager "yarn");
            [destruct (pathExists d1 (targetDir ++ ["pnpm-workspace.yaml"]));
             [destruct (remove_fails env)|]|];
            destruct Hrun as [Hrun|Hrun]; try discriminate;
            injection Hrun as <-; assumption. }
        destruct Hend as (es' & Hget' & Hpkg').
        exists es'. split; [exact Hget'|]. rewrite Hpkg'.
        destruct Hpkg1 as [H|H]; [left; exact H|right; left; exact H].
      + (* the manifest step rejected *)
        destruct Hrun as [Hrun|Hrun]; [discriminate|]. injection Hrun as ->.
        destruct (entry_get "package.json" es) as [[[bytes|M]|es0|t]|] eqn:E;
          try discriminate.
        * injection Hstep as ->. exists es. auto.
        * destruct (readJson_fails env);
            [injection Hstep as ->; exists es; auto|].
          destruct (mutate_manifest packageManager projectName M) as [M'|]
            eqn:Hmut; [|injection Hstep as ->; exists es; auto].
          destruct (writeJson_fails env) eqn:Ew; [|discriminate].
          destruct (writeJson_torn env) as [|bytes|] eqn:Et; simpl in Hstep;
            injection Hstep as ->.
          -- exists es. auto.
          -- eexists. split; [apply (get_put _ _ _ _ Hget)|].
             right. right. exists bytes.
             split; [reflexivity|]. split; [reflexivity|]. split.
             ++ unfold configurePackageManager. rewrite Hman. reflexivity.
             ++ apply entry_get_set_eq.
          -- eexists. split; [apply (get_put _ _ _ _ Hget)|].
             right. left. exists M, M'.
             repeat split; try assumption. apply entry_get_set_eq.
        * injection Hstep as ->. exists es. auto.
        * exfalso. apply (Hnl t). reflexivity.
      + destruct Hrun; discriminate. }
    destruct Hshape as (es' & Hget' & Hcases).
    exists es'. split; [exact Hget'|]. split; [exact Hcases|].
    intros value Hv.
    destruct Hcases as [H|[(j & j' & Ej & Hm & E')|(bytes & _ & _ & _ & E')]].
    + left. rewrite <- H. exact Hv.
    + right. exists j. split; [exact Ej|].
      rewrite E' in Hv. injection Hv as <-. exact Hm.
    + rewrite E' in Hv. discriminate.
Qed.

Lemma C6_written_once_witness :
  configurePackageManager torn_write_fault ["home"; "u"; "demo"] "yarn" "demo"
    sample_project
  = Threw (put ["home"; "u"; "demo"]
             (Dir (entry_set "package.json" (File (Text "{")) sample_entries))
             sample_project).
Proof.
  apply (proj1 (proj2 (proj2 (C6_written_once torn_write_fault
           ["home"; "u"; "demo"] "yarn" "demo" sample_project)))
         sample_entries
         (JObj [("name", JStr "template")])
         (JObj [("name", JStr "demo"); ("packageManager", JStr "yarn@4.0.0");
                ("workspaces", JArr [JStr "apps/*"; JStr "packages/*"])]));
    reflexivity.
Defined.

(* ------------------------------------------------------------------ *)
(** ** The command *)

(** With a template that passes validation, a target that exists is refused
    and the store is left as it is. *)
Lemma existing_target_refused (templateDir : path) (tfs : node) (env : faults)
    (fuel : nat) (inv : invocation) (d : node) :
  existsb (String.eqb "--help") (args inv) = false ->
  existsb (String.eqb "-h") (args inv) = false ->
  validateTemplate templateDir tfs = true ->
  pathExists d (path_join (cwd inv) (chosen_projectName inv)) = true ->
  main templateDir tfs env fuel inv d = Exited 1 d.
Proof.
  intros H1 H2 Hvalid Hex. unfold main.
  rewrite H1, H2, Hvalid, Hex. reflexivity.
Qed.

(** C8, at the failing run: [create-fast-turbo demo --npm] in a directory
    that holds [demo], with a template whose [packages] directory is
    missing, exits with code 1 and has removed [demo]. *)
Theorem C8_existing_target_removed :
  pathExists sample_home ["home"; "u"; "demo"] = true /\
  exists d',
    main sample_templateDir incomplete_template no_faults 10
         {| args := ["demo"; "--npm"]; cwd := ["home"; "u"];
            answer_projectName := EmptyString; answer_packageManager := EmptyString |}
         sample_home
    = Exited 1 d' /\
    get ["home"; "u"; "demo"] d' = None /\
    d' <> sample_home.
Proof.
  split; [vm_compute; reflexivity|].
  eexists. split; [vm_compute; reflexivity|].
  split; [reflexivity|discriminate].
Qed.

(** C7, at the failing run: [create-fast-turbo] with the name [shop] given
    at the prompt, and a template whose manifest does not parse.  The
    configurator rejects after [shop] was materialized; the process exits
    with code 1, [shop] is still there, and the directory removed is
    [my-app]. *)
Theorem C7_cleanup_of_another_directory :
  exists d1 d',
    instantScaffold sample_templateDir unparsable_template 10
      sample_templateDir ["home"; "u"; "shop"] sample_home = Done d1 /\
    configurePackageManager no_faults ["home"; "u"; "shop"] "pnpm" "shop" d1
    = Threw d1 /\
    main sample_templateDir unparsable_template no_faults 10
         {| args := []; cwd := ["home"; "u"];
            answer_projectName := "shop"; answer_packageManager := "pnpm" |}
         sample_home
    = Exited 1 d' /\
    get ["home"; "u"; "shop"] d' = get ["home"; "u"; "shop"] d1 /\
    get ["home"; "u"; "shop"] d' <> None /\
    get ["home"; "u"; "my-app"] sample_home <> None /\
    get ["home"; "u"; "my-app"] d' = None.
Proof.
  eexists. eexists.
  split; [vm_compute; reflexivity|].
  split; [vm_compute; reflexivity|].
  split; [vm_compute; reflexivity|].
  repeat split; try reflexivity; discriminate.
Qed.

(** When the name is the first argument, the directory removed after a
    failure is the one that was being materialized. *)
Lemma C7_named_run_cleans_target :
  exists d',
    main sample_templateDir unparsable_template no_faults 10
         {| args := ["shop"; "--npm"]; cwd := ["home"; "u"];
            answer_projectName := EmptyString; answer_packageManager := EmptyString |}
         sample_home
    = Exited 1 d' /\
    get ["home"; "u"; "shop"] d' = None /\
    get ["home"; "u"; "my-app"] d' = get ["home"; "u"; "my-app"] sample_home.
Proof.
  eexists. split; [vm_compute; reflexivity|]. split; reflexivity.
Qed.

(* ------------------------------------------------------------------ *)
(** ** What path lookup finds is in the tree *)

Lemma walk_step (hops : nat) (root : node) (follow : bool) (cur : path)
    (seg : string) (rest : list string) :
  walk hops root follow cur (seg :: rest) =
  if String.eqb seg EmptyString || String.eqb seg "." then walk hops root follow cur rest
  else if String.eqb seg ".." then walk hops root follow (removelast cur) rest
  else
    match get (cur ++ [seg]) root with
    | Some (Symlink target) =>
        match rest, follow with
        | [], false => Some (cur ++ [seg], Symlink target)
        | _, _ =>
            match hops with
            | O => None
            | S hops' =>
                walk hops' root follow
                     (if startsWith target "/" then [] else cur)
                     (split "/" target ++ rest)
            end
        end
    | Some (Dir es) => walk hops root follow (cur ++ [seg]) rest
    | Some (File c) =>
        match rest with
        | [] => Some (cur ++ [seg], File c)
        | _ => None
        end
    | None => None
    end.
Proof. destruct hops; reflexivity. Qed.

Lemma walk_sub (hops : nat) (root : node) (follow : bool) :
  forall (rest : list string) (cur real : path) (n : node),
    walk hops root follow cur rest = Some (real, n) -> get real root = Some n.
Proof.
  induction hops as [|hops IHhops];
    induction rest as [|seg rest IH]; intros cur real n;
    try (rewrite walk_nil; destruct (get cur root) eqn:E; simpl;
         [intros [= <- <-]; exact E|discriminate]);
    rewrite walk_step;
    (destruct (String.eqb seg EmptyString || String.eqb seg "."); [apply IH|]);
    (destruct (String.eqb seg ".."); [apply IH|]);
    destruct (get (cur ++ [seg]) root) as [[c|es|t]|] eqn:E;
    try discriminate; try apply IH.
  - destruct rest; [intros [= <- <-]; exact E|discriminate].
  - destruct rest; [|discriminate].
    destruct follow; [discriminate|intros [= <- <-]; exact E].
  - destruct rest; [intros [= <- <-]; exact E|discriminate].
  - destruct rest; [destruct follow|]; try apply IHhops.
    intros [= <- <-]; exact E.
Qed.

Lemma well_formed_entry (es : list (string * node)) (name : string) (n : node) :
  well_formed (Dir es) = true -> entry_get name es = Some n ->
  well_formed n = true.
Proof.
  simpl. intros H. apply andb_true_iff in H. destruct H as [_ H].
  induction es as [|[k child] es IH]; simpl; [discriminate|].
  apply andb_true_iff in H. destruct H as [Hc Hes].
  destruct (String.eqb k name); [intros [= <-]; exact Hc|apply (IH Hes)].
Qed.

Lemma well_formed_get (p : path) (d n : node) :
  well_formed d = true -> get p d = Some n -> well_formed n = true.
Proof.
  revert d. induction p as [|name p IH]; intros d Hd; simpl.
  - intros [= <-]. exact Hd.
  - destruct d as [c|es|t]; try discriminate.
    destruct (entry_get name es) as [child|] eqn:E; [|discriminate].
    apply IH. exact (well_formed_entry _ _ _ Hd E).
Qed.

Lemma readdir_names (root : node) (p : path) (items : list string) :
  well_formed root = true -> readdir root p = Some items ->
  forallb plain items = true /\ distinct items = true.
Proof.
  intros Hwf. unfold readdir, stat.
  destruct (walk MAXSYMLINKS root true [] p) as [[real n]|] eqn:E;
    [|discriminate].
  simpl. destruct n as [c|es|t]; try discriminate. intros [= <-].
  apply walk_sub in E. pose proof (well_formed_get _ _ _ Hwf E) as H.
  simpl in H. apply andb_true_iff in H. destruct H as [H _].
  apply andb_true_iff in H. exact H.
Qed.

(* ------------------------------------------------------------------ *)
(** ** Writes stay below the path they are given *)

Lemma diverge_not_prefix (p q : path) :
  diverge p q = true -> prefix_of q p = false.
Proof.
  revert q. induction p as [|a p IH]; intros [|b q]; simpl; try discriminate.
  rewrite (String.eqb_sym b a).
  destruct (String.eqb a b); [apply IH|reflexivity].
Qed.

Lemma diverge_not_prefix_parent (p q : path) :
  diverge p q = true -> prefix_of q (removelast p) = false.
Proof.
  revert q. induction p as [|a p IH]; intros [|b q]; try discriminate.
  cbn [diverge]. destruct (String.eqb a b) eqn:E.
  - intros H. destruct p as [|a' p]; [discriminate|].
    change (removelast (a :: a' :: p)) with (a :: removelast (a' :: p)).
    cbn [prefix_of]. rewrite (String.eqb_sym b a), E. apply (IH _ H).
  - intros _. destruct p as [|a' p]; [reflexivity|].
    change (removelast (a :: a' :: p)) with (a :: removelast (a' :: p)).
    cbn [prefix_of]. rewrite (String.eqb_sym b a), E. reflexivity.
Qed.

Lemma diverge_app (p r q : path) :
  diverge p q = true -> diverge (p ++ r) q = true.
Proof.
  revert q. induction p as [|a p IH]; intros [|b q]; simpl; try discriminate.
  destruct (String.eqb a b); [apply IH|reflexivity].
Qed.


Lemma ensureDir_frame (p q : path) (d d' : node) :
  ensureDir p d = Some d' -> prefix_of q p = false -> get q d' = get q d.
Proof.
  revert d d' q. induction p as [|name p IH]; intros d d' q.
  - destruct d; simpl; try discriminate. intros [= <-]. reflexivity.
  - destruct d as [c|es|t]; simpl; try discriminate.
    destruct q as [|b q]; [discriminate|]. cbn [prefix_of].
    destruct (entry_get name es) as [child|] eqn:E.
    + destruct (ensureDir p child) as [c1|] eqn:Ec; [|discriminate].
      intros [= <-]. simpl.
      destruct (String.eqb b name) eqn:Eb; simpl.
      * apply String.eqb_eq in Eb. subst b. intros Hq.
        rewrite entry_get_set_eq, E. apply (IH _ _ _ Ec Hq).
      * apply String.eqb_neq in Eb. intros _.
        rewrite entry_get_set_neq by congruence. reflexivity.
    + destruct (ensureDir p (Dir [])) as [c1|] eqn:Ec; [|discriminate].
      intros [= <-]. simpl.
      destruct (String.eqb b name) eqn:Eb; simpl.
      * apply String.eqb_eq in Eb. subst b. intros Hq.
        rewrite entry_get_set_eq, E, (IH _ _ _ Ec Hq).
        destruct q; [discriminate|reflexivity].
      * apply String.eqb_neq in Eb. intros _.
        rewrite entry_get_set_neq by congruence. reflexivity.
Qed.

Lemma modify_frame (p q : path) (f : option node -> option node) (d d' : node) :
  modify p f d = Some d' -> diverge p q = true -> get q d' = get q d.
Proof.
  revert d d' q. induction p as [|name p IH]; intros d d' q; [discriminate 2|].
  destruct q as [|b q]; [discriminate 2|].
  destruct d as [c|es|t]; simpl; try discriminate.
  destruct (String.eqb name b) eqn:Eb.
  - apply String.eqb_eq in Eb. subst b.
    destruct p as [|name' p]; [discriminate 2|].
    destruct (entry_get name es) as [child|] eqn:E; [|discriminate].
    destruct (modify (name' :: p) f child) as [c1|] eqn:Ec; [|discriminate].
    intros [= <-] Hq. simpl. rewrite entry_get_set_eq.
    apply (IH _ _ _ Ec Hq).
  - apply String.eqb_neq in Eb. intros H _.
    assert (Hd' : exists c1, d' = Dir (entry_set name c1 es)).
    { destruct p as [|name' p].
      - destruct (f (entry_get name es)) as [c1|]; [|discriminate].
        injection H as <-. eauto.
      - destruct (entry_get name es) as [child|]; [|discriminate].
        destruct (modify (name' :: p) f child) as [c1|]; [|discriminate].
        injection H as <-. eauto. }
    destruct Hd' as (c1 & ->). simpl.
    rewrite entry_get_set_neq by exact Eb. reflexivity.
Qed.

Lemma fs_copy_frame (tfs : node) (srcPath destPath q : path) (d d' : node) :
  fs_copy tfs srcPath destPath d = Done d' \/
  fs_copy tfs srcPath destPath d = Threw d' ->
  diverge destPath q = true -> get q d' = get q d.
Proof.
  unfold fs_copy. intros H Hq.
  destruct (lstat tfs srcPath) as [n|];
    [|destruct H as [H|H]; [discriminate|injection H as <-; reflexivity]].
  destruct (ensureDir (removelast destPath) d) as [d1|] eqn:E1;
    [|destruct H as [H|H]; [discriminate|injection H as <-; reflexivity]].
  pose proof (ensureDir_frame _ q _ _ E1 (diverge_not_prefix_parent _ _ Hq)) as F1.
  destruct (modify destPath (copy_node n) d1) as [d2|] eqn:E2.
  - destruct H as [H|H]; [|discriminate]. injection H as <-.
    rewrite (modify_frame _ _ _ _ _ E2 Hq). exact F1.
  - destruct H as [H|H]; [discriminate|]. injection H as <-. exact F1.
Qed.

Lemma forallb_In {A : Type} (f : A -> bool) (l : list A) (x : A) :
  forallb f l = true -> In x l -> f x = true.
Proof. intros H Hin. rewrite forallb_forall in H. exact (H x Hin). Qed.

Section Frame.
Variables (templateDir : path) (tfs : node).
Hypothesis Hwf : well_formed tfs = true.

Lemma scaffold_item_frame (recur : path -> path -> node -> outcome)
    (src dest : path) (item : string) (d d' : node) (q : path) :
  confined recur -> plain item = true ->
  leaves (scaffold_item templateDir tfs recur src dest item d) d' ->
  diverge (dest ++ [item]) q = true ->
  get q d' = get q d.
Proof.
  intros Hrec Hitem H Hq. unfold scaffold_item in H.
  rewrite (path_join_plain dest item Hitem) in H.
  assert (Hsame : forall o, leaves o d' -> o = Done d -> get q d' = get q d).
  { intros o [Ho|Ho] ->; [injection Ho as <-; reflexivity|discriminate]. }
  destruct (shouldIgnore _ _); [apply (Hsame _ H eq_refl)|].
  destruct (lstat tfs (path_join src item)) as [[c|es|t]|].
  - exact (fs_copy_frame _ _ _ _ _ _ H Hq).
  - exact (Hrec _ _ _ _ _ H Hq).
  - assert (Hattempt : forall o,
              leaves match o with
                     | Done d0 => Done d0
                     | Threw d0 => Done d0
                     | OutOfFuel => OutOfFuel
                     end d' ->
              leaves o d').
    { intros [d0|d0|] [Ho|Ho]; try discriminate; injection Ho as <-;
        [left|right]; reflexivity. }
    apply Hattempt in H. clear Hattempt.
    destruct (readlink tfs (path_join src item)) as [linkTarget|];
      [|destruct H as [H|H]; [discriminate|injection H as <-; reflexivity]].
    destruct (pathExists tfs (path_resolve src linkTarget));
      [|apply (Hsame _ H eq_refl)].
    destruct (lstat tfs (path_resolve src linkTarget)) as [[c|es|t']|].
    + exact (fs_copy_frame _ _ _ _ _ _ H Hq).
    + exact (Hrec _ _ _ _ _ H Hq).
    + exact (fs_copy_frame _ _ _ _ _ _ H Hq).
    + destruct H as [H|H]; [discriminate|injection H as <-; reflexivity].
  - destruct H as [H|H]; [discriminate|injection H as <-; reflexivity].
Qed.

Lemma scaffold_loop_frame (body : string -> node -> outcome)
    (items : list string) (q : path) :
  (forall item d0 d1, In item items -> leaves (body item d0) d1 ->
                      get q d1 = get q d0) ->
  forall d d', leaves (scaffold_loop body items d) d' -> get q d' = get q d.
Proof.
  induction items as [|item items IH]; intros Hbody d d' H; simpl in H.
  - destruct H as [H|H]; [injection H as <-; reflexivity|discriminate].
  - destruct (body item d) as [d1|d1|] eqn:E.
    + rewrite (IH (fun i a b Hin => Hbody i a b (or_intror Hin)) _ _ H).
      apply (Hbody item); [left; reflexivity|left; exact E].
    + destruct H as [H|H]; [discriminate|]. injection H as <-.
      apply (Hbody item); [left; reflexivity|right; exact E].
    + destruct H; discriminate.
Qed.

Lemma scaffold_frame (fuel : nat) :
  confined (instantScaffold templateDir tfs fuel).
Proof.
  induction fuel as [|fuel IH]; intros src dest d d' q H Hq; simpl in H.
  - destruct H; discriminate.
  - destruct (ensureDir dest d) as [d1|] eqn:E1;
      [|destruct H as [H|H]; [discriminate|injection H as <-; reflexivity]].
    pose proof (ensureDir_frame _ q _ _ E1 (diverge_not_prefix _ _ Hq)) as F1.
    destruct (readdir tfs src) as [items|] eqn:Edir;
      [|destruct H as [H|H]; [discriminate|injection H as <-; exact F1]].
    destruct (readdir_names _ _ _ Hwf Edir) as [Hplain _].
    rewrite <- F1. revert H. apply scaffold_loop_frame.
    intros item d0 d2 Hin Hbody.
    apply (scaffold_item_frame _ src dest item d0 d2 q IH
             (forallb_In _ _ _ Hplain Hin) Hbody).
    apply diverge_app. exact Hq.
Qed.
End Frame.

Section Skipped.
Variables (templateDir : path) (tfs : node).
Hypothesis Hwf : well_formed tfs = true.

End Skipped.


Lemma strip_common_below (p q : path) : strip_common p (p ++ q) = ([], q).
Proof.
  induction p as [|a p IH]; simpl; [destruct q; reflexivity|].
  rewrite String.eqb_refl. exact IH.
Qed.

Lemma path_relative_below (root below : path) :
  path_relative root (root ++ below) = join "/" below.
Proof. unfold path_relative. rewrite strip_common_below. reflexivity. Qed.



Lemma broken_link_skipped (templateDir : path) (tfs : node)
    (recur : path -> path -> node -> outcome) (src dest : path)
    (item linkTarget : string) (d : node) :
  lstat tfs (path_join src item) = Some (Symlink linkTarget) ->
  pathExists tfs (path_resolve src linkTarget) = false \/
  lstat tfs (path_resolve src linkTarget) = None ->
  scaffold_item templateDir tfs recur src dest item d = Done d.
Proof.
  intros Hlink Hbroken. unfold scaffold_item, readlink. rewrite Hlink.
  destruct (shouldIgnore _ _); [reflexivity|].
  destruct (pathExists tfs (path_resolve src linkTarget)); [|reflexivity].
  destruct Hbroken as [Hb|Hb]; [discriminate|]. rewrite Hb. reflexivity.
Qed.

(** C3, at the failing input: in [dotted_template] the link [x] is broken,
    for it leads to [packages/README], which does not exist.  The run ends
    normally, as claimed, but the destination has an entry for the link: a
    copy of the file [README] of the template root, which is where
    [path.resolve] puts the target of the link. *)
Theorem C3_dangling_link_copied :
  exists d',
    well_formed dotted_template = true /\
    lstat dotted_template (sample_templateDir ++ ["x"])
    = Some (Symlink "a/../README") /\
    stat dotted_template (sample_templateDir ++ ["x"]) = None /\
    path_resolve sample_templateDir "a/../README"
    = sample_templateDir ++ ["README"] /\
    instantScaffold sample_templateDir dotted_template 10
      sample_templateDir ["home"; "u"; "demo"] empty_home = Done d' /\
    get ["home"; "u"; "demo"; "x"] d' = Some (File (Text "root readme")).
Proof.
  eexists. repeat split; vm_compute; reflexivity.
Qed.

(* ------------------------------------------------------------------ *)
(** ** [lstat] and [stat] *)

Lemma walk_settled (hops : nat) (root : node) :
  forall (rest : list string) (cur real : path) (n : node),
    walk hops root false cur rest = Some (real, n) -> is_symlink n = false ->
    walk hops root true cur rest = Some (real, n).
Proof.
  induction hops as [|hops IHhops];
    induction rest as [|seg rest IH]; intros cur real n;
    try (rewrite !walk_nil; tauto);
    rewrite !walk_step;
    (destruct (String.eqb seg EmptyString || String.eqb seg "."); [apply IH|]);
    (destruct (String.eqb seg ".."); [apply IH|]);
    destruct (get (cur ++ [seg]) root) as [[c|es|t]|];
    try discriminate; try apply IH; try tauto.
  - destruct rest; [|discriminate]. intros [= <- <-]. discriminate.
  - destruct rest; [intros [= <- <-]; discriminate|apply IHhops].
Qed.

Lemma walk_followed (hops : nat) (root : node) :
  forall (rest : list string) (cur : path) (found : path * node),
    walk hops root true cur rest = Some found ->
    exists found', walk hops root false cur rest = Some found'.
Proof.
  induction hops as [|hops IHhops];
    induction rest as [|seg rest IH]; intros cur found;
    try (rewrite !walk_nil; eauto);
    rewrite !walk_step;
    (destruct (String.eqb seg EmptyString || String.eqb seg "."); [apply IH|]);
    (destruct (String.eqb seg ".."); [apply IH|]);
    destruct (get (cur ++ [seg]) root) as [[c|es|t]|];
    try discriminate; try apply IH; eauto.
  - destruct rest; [discriminate|discriminate].
  - destruct rest; [eauto|apply IHhops].
Qed.

Lemma lstat_settled (root : node) (p : path) (n : node) :
  lstat root p = Some n -> is_symlink n = false -> stat root p = Some n.
Proof.
  unfold lstat, stat.
  destruct (walk MAXSYMLINKS root false [] p) as [[real n']|] eqn:E;
    [|discriminate].
  simpl. intros [= ->] Hn. rewrite (walk_settled _ _ _ _ _ _ E Hn). reflexivity.
Qed.

Lemma stat_lstat (root : node) (p : path) (n : node) :
  stat root p = Some n -> exists n', lstat root p = Some n'.
Proof.
  unfold lstat, stat.
  destruct (walk MAXSYMLINKS root true [] p) as [found|] eqn:E; [|discriminate].
  intros _. destruct (walk_followed _ _ _ _ _ E) as (found' & ->).
  simpl. eauto.
Qed.

(* ------------------------------------------------------------------ *)
(** ** The materializer builds the mirror *)

Lemma ensureDir_app (p q : path) (m d : node) :
  get p d = Some m ->
  ensureDir (p ++ q) d = option_map (fun m' => put p m' d) (ensureDir q m).
Proof.
  revert d. induction p as [|name p IH]; intros d; simpl.
  - intros [= ->]. destruct (ensureDir q m); reflexivity.
  - destruct d as [c|es|t]; try discriminate.
    destruct (entry_get name es) as [child|] eqn:E; [|discriminate].
    intros H. rewrite (IH _ H). destruct (ensureDir q m); reflexivity.
Qed.

Lemma ensureDir_exists (p : path) (d : node) (es : list (string * node)) :
  get p d = Some (Dir es) -> ensureDir p d = Some d.
Proof.
  intros H. rewrite <- (app_nil_r p), (ensureDir_app p [] _ _ H). simpl.
  rewrite (put_same _ _ _ H). reflexivity.
Qed.

Lemma ensureDir_new_child (p : path) (name : string) (d : node)
    (es : list (string * node)) :
  get p d = Some (Dir es) -> entry_get name es = None ->
  ensureDir (p ++ [name]) d = Some (put p (Dir (es ++ [(name, Dir [])])) d).
Proof.
  intros H E. rewrite (ensureDir_app p [name] _ _ H). simpl.
  rewrite E. simpl. rewrite (entry_set_absent _ _ _ E). reflexivity.
Qed.

Lemma put_new_child (p : path) (name : string) (n0 n : node) (d : node)
    (es es0 : list (string * node)) :
  get p d = Some (Dir es0) -> entry_get name es = None ->
  put (p ++ [name]) n (put p (Dir (es ++ [(name, n0)])) d)
  = put p (Dir (es ++ [(name, n)])) d.
Proof.
  intros H E.
  rewrite (put_app p [name] n (Dir (es ++ [(name, n0)])))
    by (apply (get_put _ _ _ _ H)).
  rewrite put_put. simpl.
  rewrite entry_get_app, E. simpl. rewrite String.eqb_refl.
  f_equal. f_equal.
  clear H. induction es as [|[k w] es IH]; simpl.
  - rewrite String.eqb_refl. reflexivity.
  - simpl in E. destruct (String.eqb k name); [discriminate|].
    rewrite (IH E). reflexivity.
Qed.

Lemma fs_copy_new_file (tfs : node) (srcPath dest : path) (item : string)
    (c : content) (d : node) (acc : list (string * node)) :
  lstat tfs srcPath = Some (File c) ->
  get dest d = Some (Dir acc) -> entry_get item acc = None ->
  fs_copy tfs srcPath (dest ++ [item]) d
  = Done (put dest (Dir (acc ++ [(item, File c)])) d).
Proof.
  intros Hsrc Hget E. unfold fs_copy. rewrite Hsrc, removelast_last.
  rewrite (ensureDir_exists _ _ _ Hget), (modify_snoc _ _ _ _ _ Hget), E.
  simpl. rewrite (entry_set_absent _ _ _ E). reflexivity.
Qed.

Section Exact.
Variables (templateDir : path) (tfs : node).

Variable fuel : nat.
Hypothesis IHfuel : builds_mirror templateDir tfs fuel.

Lemma new_directory (src dest : path) (item : string) (d : node)
    (acc es : list (string * node)) :
  get dest d = Some (Dir acc) -> entry_get item acc = None ->
  mirror templateDir tfs fuel src = Some es ->
  unchained templateDir tfs fuel src = true ->
  instantScaffold templateDir tfs fuel src (dest ++ [item]) d
  = Done (put dest (Dir (acc ++ [(item, Dir es)])) d).
Proof.
  intros Hget E Hmirror Hun.
  rewrite (IHfuel src (dest ++ [item]) d _ es
             (ensureDir_new_child _ _ _ _ Hget E)); try assumption.
  - rewrite (put_new_child dest item (Dir []) (Dir es) d acc acc Hget E).
    reflexivity.
  - rewrite (get_snoc dest item _ (acc ++ [(item, Dir [])])
               (get_put _ _ _ _ Hget)).
    rewrite entry_get_app, E. simpl. rewrite String.eqb_refl. reflexivity.
Qed.

Lemma scaffold_item_exact (src dest : path) (item : string) (d : node)
    (acc e : list (string * node)) :
  plain item = true -> entry_get item acc = None ->
  get dest d = Some (Dir acc) ->
  mirror_item templateDir tfs (mirror templateDir tfs fuel) src item = Some e ->
  unchained_item templateDir tfs (unchained templateDir tfs fuel) src item = true ->
  scaffold_item templateDir tfs (instantScaffold templateDir tfs fuel)
                src dest item d
  = Done (put dest (Dir (acc ++ e)) d) /\
  (forall k, k <> item -> entry_get k e = None).
Proof.
  intros Hitem E Hget Hmirror Hun.
  unfold scaffold_item, mirror_item, unchained_item, readlink in *.
  rewrite (path_join_plain dest item Hitem).
  assert (Hnone : Done d = Done (put dest (Dir (acc ++ [])) d))
    by (rewrite app_nil_r, (put_same _ _ _ Hget); reflexivity).
  assert (Hone : forall (n : node) k, k <> item -> entry_get k [(item, n)] = None).
  { intros n k Hk. simpl. apply not_eq_sym, String.eqb_neq in Hk.
    rewrite Hk. reflexivity. }
  destruct (shouldIgnore _ _).
  { injection Hmirror as <-. split; [exact Hnone|reflexivity]. }
  destruct (lstat tfs (path_join src item)) as [[c|es0|linkTarget]|] eqn:Esrc;
    [| | |discriminate].
  - injection Hmirror as <-.
    split; [apply fs_copy_new_file; auto|apply Hone].
  - destruct (mirror templateDir tfs fuel (path_join src item)) as [es|] eqn:Em;
      [|discriminate].
    injection Hmirror as <-.
    split; [apply new_directory; auto|apply Hone].
  - unfold pathExists in *.
    destruct (stat tfs (path_resolve src linkTarget)) as [n|] eqn:Estat.
    + destruct (stat_lstat _ _ _ Estat) as (n' & Elstat).
      rewrite Elstat in *.
      assert (Hn' : is_symlink n' = false) by (destruct n'; auto).
      rewrite (lstat_settled _ _ _ Elstat Hn') in Estat.
      injection Estat as <-.
      destruct n' as [c|es0|t]; [| |discriminate].
      * injection Hmirror as <-.
        rewrite (fs_copy_new_file _ _ _ _ c _ _ Elstat Hget E).
        split; [reflexivity|apply Hone].
      * destruct (mirror templateDir tfs fuel (path_resolve src linkTarget))
          as [es|] eqn:Em; [|discriminate].
        injection Hmirror as <-.
        rewrite (new_directory _ _ _ _ _ _ Hget E Em Hun).
        split; [reflexivity|apply Hone].
    + injection Hmirror as <-. split; [exact Hnone|reflexivity].
Qed.
End Exact.

Lemma distinct_cons (item : string) (items : list string) :
  distinct (item :: items) = true -> ~ In item items /\ distinct items = true.
Proof.
  simpl. intros H. apply andb_true_iff in H. destruct H as [H Hd].
  split; [|exact Hd]. intros Hin. apply negb_true_iff in H.
  assert (Hex : existsb (String.eqb item) items = true)
    by (apply existsb_exists; exists item; split;
        [exact Hin|apply String.eqb_refl]).
  congruence.
Qed.

Section ExactLoop.
Variables (templateDir : path) (tfs : node) (fuel : nat).
Hypothesis IHfuel : builds_mirror templateDir tfs fuel.
Variables (src dest : path).

Lemma scaffold_loop_exact (items : list string) :
  forall (acc es : list (string * node)) (d : node),
    forallb plain items = true -> distinct items = true ->
    (forall x, In x items -> entry_get x acc = None) ->
    get dest d = Some (Dir acc) ->
    mirror_items (mirror_item templateDir tfs (mirror templateDir tfs fuel) src)
                 items = Some es ->
    forallb (unchained_item templateDir tfs (unchained templateDir tfs fuel) src)
            items = true ->
    scaffold_loop
      (scaffold_item templateDir tfs (instantScaffold templateDir tfs fuel)
                     src dest) items d
    = Done (put dest (Dir (acc ++ es)) d).
Proof.
  induction items as [|item items IH];
    intros acc es d Hplain Hdistinct Hfresh Hget Hmirror Hun; simpl in *.
  - injection Hmirror as <-.
    rewrite app_nil_r, (put_same _ _ _ Hget). reflexivity.
  - apply andb_true_iff in Hplain. destruct Hplain as [Hitem Hplain].
    apply andb_true_iff in Hun. destruct Hun as [Hun1 Hun].
    destruct (distinct_cons item items Hdistinct) as [Hnotin Hdistinct'].
    destruct (mirror_item templateDir tfs (mirror templateDir tfs fuel) src item)
      as [e|] eqn:Eone; [|discriminate].
    destruct (mirror_items _ items) as [es'|] eqn:Erest; [|discriminate].
    injection Hmirror as <-.
    destruct (scaffold_item_exact templateDir tfs fuel IHfuel src dest item d
                acc e Hitem (Hfresh item (or_introl eq_refl)) Hget Eone Hun1)
      as [Hstep Hnames].
    rewrite Hstep.
    assert (Hfresh' : forall x, In x items -> entry_get x (acc ++ e) = None).
    { intros x Hx. rewrite entry_get_app, (Hfresh x (or_intror Hx)).
      apply Hnames. intros ->. contradiction. }
    rewrite (IH (acc ++ e) es' _ Hplain Hdistinct' Hfresh'
               (get_put _ _ _ _ Hget) eq_refl Hun).
    rewrite put_put, app_assoc. reflexivity.
Qed.
End ExactLoop.

Lemma scaffold_exact (templateDir : path) (tfs : node) :
  well_formed tfs = true -> forall fuel, builds_mirror templateDir tfs fuel.
Proof.
  intros Hwf. induction fuel as [|fuel IH];
    intros src dest d d1 es Hdir Hempty Hmirror Hun; simpl in *;
    [discriminate|].
  rewrite Hdir.
  destruct (readdir tfs src) as [items|] eqn:Eitems; [|discriminate].
  destruct (readdir_names _ _ _ Hwf Eitems) as [Hplain Hdistinct].
  apply (scaffold_loop_exact templateDir tfs fuel IH src dest items [] es d1);
    auto.
Qed.

Lemma mirror_items_link_free (one : string -> option (list (string * node)))
    (items : list string) :
  (forall item e, one item = Some e -> link_free (Dir e) = true) ->
  forall es, mirror_items one items = Some es -> link_free (Dir es) = true.
Proof.
  intros Hone. induction items as [|item items IH]; intros es; simpl.
  - intros [= <-]. reflexivity.
  - destruct (one item) as [e|] eqn:E; [|discriminate].
    destruct (mirror_items one items) as [es'|]; [|discriminate].
    intros [= <-]. specialize (Hone _ _ E). specialize (IH _ eq_refl).
    clear E. induction e as [|[k n] e IHe]; simpl in *; [exact IH|].
    apply andb_true_iff in Hone. destruct Hone as [Hn He].
    rewrite Hn. exact (IHe He).
Qed.

Lemma mirror_link_free (templateDir : path) (tfs : node) (fuel : nat) :
  forall src es,
    mirror templateDir tfs fuel src = Some es -> link_free (Dir es) = true.
Proof.
  induction fuel as [|fuel IH]; intros src es; simpl; [discriminate|].
  destruct (readdir tfs src) as [items|]; [|discriminate].
  apply mirror_items_link_free. clear es. intros item e. unfold mirror_item.
  assert (Hsub : forall p,
             option_map (fun es => [(item, Dir es)])
                        (mirror templateDir tfs fuel p) = Some e ->
             link_free (Dir e) = true).
  { intros p. destruct (mirror templateDir tfs fuel p) as [es|] eqn:E;
      [|discriminate].
    intros [= <-]. specialize (IH _ _ E). simpl in *. rewrite IH. reflexivity. }
  destruct (shouldIgnore _ _); [intros [= <-]; reflexivity|].
  destruct (lstat tfs (path_join src item)) as [[c|es0|t]|]; try discriminate.
  - intros [= <-]. reflexivity.
  - apply Hsub.
  - destruct (stat tfs (path_resolve src t)) as [[c|es0|t']|].
    + intros [= <-]. reflexivity.
    + apply Hsub.
    + intros [= <-]. reflexivity.
    + intros [= <-]. reflexivity.
Qed.

(** C1, at the failing input: in [chained_template] the link [index.md]
    leads to the link [docs.md], and on to the file [README.md], so its
    target exists.  The run ends normally; the destination has the content
    of the file for [docs.md], but for [index.md] a symbolic link, and so is
    not free of links. *)
Theorem C1_chained_link_recreated :
  exists d',
    well_formed chained_template = true /\
    stat chained_template (sample_templateDir ++ ["index.md"])
    = Some (File (Text "read me")) /\
    instantScaffold sample_templateDir chained_template 10
      sample_templateDir ["home"; "u"; "demo"] empty_home = Done d' /\
    get ["home"; "u"; "demo"; "docs.md"] d' = Some (File (Text "read me")) /\
    (exists target,
        get ["home"; "u"; "demo"; "index.md"] d' = Some (Symlink target)) /\
    (forall n, get ["home"; "u"; "demo"] d' = Some n -> link_free n = false).
Proof.
  eexists.
  split; [vm_compute; reflexivity|].
  split; [vm_compute; reflexivity|].
  split; [vm_compute; reflexivity|].
  split; [reflexivity|].
  split; [eexists; reflexivity|].
  intros n [= <-]. reflexivity.
Qed.

(** The path the program computes for a link need not be where the link
    leads: in [crossed_template] the link [x] leads to [packages/README],
    and the destination receives the content of [README]. *)
Example lexical_resolution_copies_another_file :
  exists d',
    stat crossed_template (sample_templateDir ++ ["x"])
    = Some (File (Text "pkg readme")) /\
    instantScaffold sample_templateDir crossed_template 10
      sample_templateDir ["home"; "u"; "demo"] empty_home = Done d' /\
    get ["home"; "u"; "demo"; "x"] d' = Some (File (Text "root readme")).
Proof.
  eexists. repeat split; vm_compute; reflexivity.
Qed.

(* ------------------------------------------------------------------ *)
(** ** More fuel changes nothing *)

Section MoreFuel.
Variables (templateDir : path) (tfs : node).

Lemma mirror_items_sub (one one' : string -> option (list (string * node)))
    (items : list string) :
  (forall item e, In item items -> one item = Some e -> one' item = Some e) ->
  forall es, mirror_items one items = Some es -> mirror_items one' items = Some es.
Proof.
  induction items as [|item items IH]; intros Hone es; simpl; [auto|].
  destruct (one item) as [e|] eqn:E; [|discriminate].
  destruct (mirror_items one items) as [es'|] eqn:Erest; [|discriminate].
  intros [= <-].
  rewrite (Hone item e (or_introl eq_refl) E).
  rewrite (IH (fun i x Hin => Hone i x (or_intror Hin)) es' eq_refl).
  reflexivity.
Qed.

Lemma mirror_item_sub (sub sub' : path -> option (list (string * node)))
    (src : path) (item : string) (e : list (string * node)) :
  (forall p es, sub p = Some es -> sub' p = Some es) ->
  mirror_item templateDir tfs sub src item = Some e ->
  mirror_item templateDir tfs sub' src item = Some e.
Proof.
  intros Hsub. unfold mirror_item.
  assert (Hmap : forall p,
             option_map (fun es => [(item, Dir es)]) (sub p) = Some e ->
             option_map (fun es => [(item, Dir es)]) (sub' p) = Some e).
  { intros p. destruct (sub p) as [es|] eqn:E; [|discriminate].
    rewrite (Hsub _ _ E). auto. }
  destruct (shouldIgnore _ _); [auto|].
  destruct (lstat tfs (path_join src item)) as [[c|es0|t]|]; auto.
  destruct (stat tfs (path_resolve src t)) as [[c|es0|t']|]; auto.
Qed.

Lemma mirror_more_fuel (fuel : nat) :
  forall src es,
    mirror templateDir tfs fuel src = Some es ->
    mirror templateDir tfs (S fuel) src = Some es.
Proof.
  induction fuel as [|fuel IH]; intros src es; [discriminate|].
  intros H. change (mirror templateDir tfs (S fuel) src)
    with (match readdir tfs src with
          | None => None
          | Some items =>
              mirror_items
                (mirror_item templateDir tfs (mirror templateDir tfs fuel) src)
                items
          end) in H.
  change (mirror templateDir tfs (S (S fuel)) src)
    with (match readdir tfs src with
          | None => None
          | Some items =>
              mirror_items
                (mirror_item templateDir tfs
                   (mirror templateDir tfs (S fuel)) src) items
          end).
  destruct (readdir tfs src) as [items|]; [|discriminate].
  revert H. apply mirror_items_sub.
  intros item e _. apply mirror_item_sub. exact IH.
Qed.

Lemma unchained_more_fuel (fuel : nat) :
  forall src es,
    mirror templateDir tfs fuel src = Some es ->
    unchained templateDir tfs fuel src = true ->
    unchained templateDir tfs (S fuel) src = true.
Proof.
  induction fuel as [|fuel IH]; intros src es; [discriminate|].
  intros Hm Hu.
  change (mirror templateDir tfs (S fuel) src)
    with (match readdir tfs src with
          | None => None
          | Some items =>
              mirror_items
                (mirror_item templateDir tfs (mirror templateDir tfs fuel) src)
                items
          end) in Hm.
  change (unchained templateDir tfs (S fuel) src)
    with (match readdir tfs src with
          | None => true
          | Some items =>
              forallb (unchained_item templateDir tfs
                         (unchained templateDir tfs fuel) src) items
          end) in Hu.
  change (unchained templateDir tfs (S (S fuel)) src)
    with (match readdir tfs src with
          | None => true
          | Some items =>
              forallb (unchained_item templateDir tfs
                         (unchained templateDir tfs (S fuel)) src) items
          end).
  destruct (readdir tfs src) as [items|]; [|reflexivity].
  revert es Hm Hu. induction items as [|item items IHitems];
    intros es Hm Hu; [reflexivity|].
  cbn [mirror_items] in Hm. cbn [forallb] in Hu |- *.
  destruct (mirror_item templateDir tfs (mirror templateDir tfs fuel) src item)
    as [e|] eqn:Eone; [|discriminate].
  destruct (mirror_items _ items) as [es'|] eqn:Erest; [|discriminate].
  apply andb_true_iff in Hu. destruct Hu as [Hu1 Hu].
  rewrite (IHitems es' eq_refl Hu), andb_true_r.
  clear IHitems Erest Hu Hm.
  unfold mirror_item in Eone. unfold unchained_item in *.
  destruct (shouldIgnore _ _); [reflexivity|].
  destruct (lstat tfs (path_join src item)) as [[c|es0|t]|]; auto.
  - destruct (mirror templateDir tfs fuel (path_join src item)) as [es1|] eqn:Em;
      [|discriminate].
    exact (IH _ _ Em Hu1).
  - destruct (pathExists tfs (path_resolve src t)); [|reflexivity].
    destruct (lstat tfs (path_resolve src t)) as [[c|es0|t']|] eqn:El; auto.
    rewrite (lstat_settled _ _ _ El eq_refl) in Eone.
    destruct (mirror templateDir tfs fuel (path_resolve src t)) as [es1|] eqn:Em;
      [|discriminate].
    exact (IH _ _ Em Hu1).
Qed.

(** Once the fuel reaches, the run is the same with any more of it. *)
Lemma materialized_with_more_fuel (fuel extra : nat) (src dest : path)
    (d d1 : node) (es : list (string * node)) :
  well_formed tfs = true ->
  ensureDir dest d = Some d1 -> get dest d1 = Some (Dir []) ->
  mirror templateDir tfs fuel src = Some es ->
  unchained templateDir tfs fuel src = true ->
  instantScaffold templateDir tfs (extra + fuel) src dest d
  = Done (put dest (Dir es) d1).
Proof.
  intros Hwf Hdir Hempty Hm Hu.
  assert (H : mirror templateDir tfs (extra + fuel) src = Some es /\
              unchained templateDir tfs (extra + fuel) src = true).
  { induction extra as [|extra [IHm IHu]]; [auto|].
    split; [exact (mirror_more_fuel _ _ _ IHm)|].
    exact (unchained_more_fuel _ _ _ IHm IHu). }
  destruct H as [Hm' Hu'].
  exact (scaffold_exact templateDir tfs Hwf _ src dest d d1 es
           Hdir Hempty Hm' Hu').
Qed.
End MoreFuel.

(* ================================================================== *)
(** * Further properties *)

(* ------------------------------------------------------------------ *)
(** ** The ignore filter, in full *)

Lemma literal_rule_in (name : string) :
  In name literal_rules -> In name IGNORE_PATTERNS /\ includes name "*" = false.
Proof.
  unfold literal_rules, IGNORE_PATTERNS. simpl.
  intros H. repeat (destruct H as [<-|H]; [split; [tauto|reflexivity]|]).
  contradiction.
Qed.

Lemma shouldIgnore_spec (filePath : path) (relativePath : string) :
  shouldIgnore filePath relativePath = true <->
  In (basename filePath) literal_rules \/ In relativePath literal_rules \/
  follows_a_char (basename filePath) \/ follows_a_char relativePath.
Proof.
  split.
  - unfold shouldIgnore, shouldIgnoreWith. intros H.
    apply existsb_exists in H. destruct H as (pattern & Hin & Hm).
    unfold IGNORE_PATTERNS in Hin. simpl in Hin.
    repeat (destruct Hin as [<-|Hin];
            [try (apply literal_rule in Hm; [|reflexivity];
                  destruct Hm as [->| ->]; [left|right; left];
                  unfold literal_rules; simpl; tauto)|]);
      [|contradiction].
    change (regex_test env_regex (basename filePath)
            || regex_test env_regex relativePath = true) in Hm.
    apply orb_true_iff in Hm. rewrite !env_regex_spec in Hm. tauto.
  - intros [H|[H|H]].
    + destruct (literal_rule_in _ H) as [Hin Hlit].
      apply (shouldIgnoreWith_intro IGNORE_PATTERNS _ _ _ Hin).
      apply literal_rule; auto.
    + destruct (literal_rule_in _ H) as [Hin Hlit].
      apply (shouldIgnoreWith_intro IGNORE_PATTERNS _ _ _ Hin).
      apply literal_rule; auto.
    + apply (shouldIgnoreWith_intro IGNORE_PATTERNS "*.env*"); [simpl; tauto|].
      change (regex_test env_regex (basename filePath)
              || regex_test env_regex relativePath = true).
      apply orb_true_iff. rewrite !env_regex_spec. exact H.
Qed.

(** X1: the filter ignores an entry exactly when its base name or its
    relative path is one of the twelve literal rules, or holds a character
    other than a line terminator right before ["env"]. *)
Theorem X1_filter_characterised (filePath : path) (relativePath : string) :
  shouldIgnore filePath relativePath = true <->
  In (basename filePath) literal_rules \/ In relativePath literal_rules \/
  follows_a_char (basename filePath) \/ follows_a_char relativePath.
Proof. exact (shouldIgnore_spec filePath relativePath). Qed.

Lemma join_snoc (sep : string) (parts : list string) (last : string) :
  parts <> [] ->
  join sep (parts ++ [last]) = (join sep parts ++ sep ++ last)%string.
Proof.
  induction parts as [|p parts IH]; [contradiction|]. intros _.
  destruct parts as [|p' parts]; [reflexivity|].
  change (join sep ((p :: p' :: parts) ++ [last]))
    with (p ++ sep ++ join sep ((p' :: parts) ++ [last]))%string.
  rewrite IH by discriminate.
  change (join sep (p :: p' :: parts))
    with (p ++ sep ++ join sep (p' :: parts))%string.
  rewrite !append_assoc. reflexivity.
Qed.

(** X2: below the top level of the template every entry whose name begins
    with ["env"] is ignored, because the separator of its relative path comes
    right before ["env"]; the same name at the top level is kept. *)
Theorem X2_nested_env_names (templateDir below : path) (post : string) :
  below <> [] ->
  plain ("env" ++ post) = true ->
  shouldIgnore
    (path_join (templateDir ++ below) ("env" ++ post))
    (path_relative templateDir
       (path_join (templateDir ++ below) ("env" ++ post))) = true /\
  shouldIgnore (path_join templateDir "env")
               (path_relative templateDir (path_join templateDir "env"))
  = false.
Proof.
  intros Hbelow Hplain. split.
  - rewrite (path_join_plain _ _ Hplain), <- app_assoc, path_relative_below.
    apply shouldIgnore_spec. right. right. right.
    rewrite (join_snoc "/" below _ Hbelow).
    exists (join "/" below), "/"%char, post. split; reflexivity.
  - rewrite (path_join_plain templateDir "env" eq_refl).
    rewrite (path_relative_below templateDir ["env"]).
    unfold shouldIgnore, shouldIgnoreWith. rewrite basename_snoc. reflexivity.
Qed.

Lemma X2_nested_env_names_witness :
  shouldIgnore
    (path_join (sample_templateDir ++ ["apps"; "web"]) ("env" ++ ".d.ts"))
    (path_relative sample_templateDir
       (path_join (sample_templateDir ++ ["apps"; "web"]) ("env" ++ ".d.ts")))
  = true /\
  shouldIgnore (path_join sample_templateDir "env")
               (path_relative sample_templateDir
                  (path_join sample_templateDir "env"))
  = false.
Proof.
  apply (X2_nested_env_names sample_templateDir ["apps"; "web"] ".d.ts");
    [discriminate|reflexivity].
Defined.

(* ------------------------------------------------------------------ *)
(** ** What the materializer never does *)

(** X3: in a store that holds no symbolic link, the materializer leaves
    alone every entry of the destination whose name no entry of the template
    directory bears, however the run ends.  (Through a symbolic link of the
    destination the program would write elsewhere; see [ensureDir].) *)
Theorem X3_other_entries_kept (templateDir : path) (tfs : node) (fuel : nat)
    (src dest : path) (items : list string) (name : string) (d d' : node) :
  well_formed tfs = true ->
  link_free d = true ->
  readdir tfs src = Some items -> ~ In name items ->
  leaves (instantScaffold templateDir tfs fuel src dest d) d' ->
  forall below,
    get (dest ++ name :: below) d' = get (dest ++ name :: below) d.
Proof.
  intros Hwf _ Hdir Hnotin H below.
  destruct fuel as [|fuel]; simpl in H; [destruct H; discriminate|].
  assert (Hq : prefix_of (dest ++ name :: below) dest = false).
  { clear. induction dest as [|a p IH]; simpl; [reflexivity|].
    rewrite String.eqb_refl. exact IH. }
  destruct (ensureDir dest d) as [d1|] eqn:E1;
    [|destruct H as [H|H]; [discriminate|injection H as <-; reflexivity]].
  pose proof (ensureDir_frame _ _ _ _ E1 Hq) as F1.
  rewrite Hdir in H. rewrite <- F1.
  destruct (readdir_names _ _ _ Hwf Hdir) as [Hplain _].
  revert H. apply scaffold_loop_frame.
  intros item d0 d2 Hin Hbody.
  apply (scaffold_item_frame templateDir tfs _ src dest item d0 d2 _
           (scaffold_frame templateDir tfs Hwf fuel)
           (forallb_In _ _ _ Hplain Hin) Hbody).
  replace (dest ++ name :: below) with ((dest ++ [name]) ++ below)
    by (rewrite <- app_assoc; reflexivity).
  assert (Hne : item <> name) by (intros ->; contradiction).
  clear - Hne. induction dest as [|c p IH]; simpl.
  - apply String.eqb_neq in Hne. rewrite Hne. reflexivity.
  - rewrite String.eqb_refl. exact IH.
Qed.

Lemma X3_other_entries_kept_witness :
  exists d',
    instantScaffold sample_templateDir sample_template 10
      sample_templateDir ["home"; "u"; "my-app"] sample_home = Done d' /\
    get (["home"; "u"; "my-app"] ++ "notes.txt" :: []) d'
    = get (["home"; "u"; "my-app"] ++ "notes.txt" :: []) sample_home.
Proof.
  eexists. split; [vm_compute; reflexivity|].
  apply (X3_other_entries_kept sample_templateDir sample_template 10
           sample_templateDir ["home"; "u"; "my-app"]
           ["apps"; "packages"; "package.json"] "notes.txt" sample_home);
    try (vm_compute; reflexivity).
  - simpl. intros [H|[H|[H|H]]]; try discriminate. exact H.
  - left. vm_compute. reflexivity.
Defined.

(** X4: the turn of the loop for a symbolic link never rejects: whatever
    fails while its target is read, copied or materialized is swallowed,
    what was written until then stays, and the loop goes on. *)
Theorem X4_link_never_rejects (templateDir : path) (tfs : node)
    (recur : path -> path -> node -> outcome) (src dest : path)
    (item linkTarget : string) (d : node) :
  lstat tfs (path_join src item) = Some (Symlink linkTarget) ->
  shouldIgnore (path_join src item)
               (path_relative templateDir (path_join src item)) = false ->
  let resolvedPath := path_resolve src linkTarget in
  let destPath := path_join dest item in
  (forall d', scaffold_item templateDir tfs recur src dest item d <> Threw d') /\
  (forall d', pathExists tfs resolvedPath = true ->
              (exists es, lstat tfs resolvedPath = Some (Dir es)) ->
              recur resolvedPath destPath d = Threw d' ->
              scaffold_item templateDir tfs recur src dest item d = Done d') /\
  (forall d', pathExists tfs resolvedPath = true ->
              (forall es, lstat tfs resolvedPath <> Some (Dir es)) ->
              fs_copy tfs resolvedPath destPath d = Threw d' ->
              scaffold_item templateDir tfs recur src dest item d = Done d').
Proof.
  intros Hlink Hkept resolvedPath destPath.
  unfold scaffold_item, readlink. rewrite Hkept, Hlink.
  fold resolvedPath. fold destPath.
  split; [|split].
  - intros d'.
    destruct (pathExists tfs resolvedPath); [|discriminate].
    destruct (lstat tfs resolvedPath) as [[c|es|t]|]; try discriminate.
    + destruct (fs_copy tfs resolvedPath destPath d); discriminate.
    + destruct (recur resolvedPath destPath d); discriminate.
    + destruct (fs_copy tfs resolvedPath destPath d); discriminate.
  - intros d' Hex (es & Hdir) Hrec. rewrite Hex, Hdir, Hrec. reflexivity.
  - intros d' Hex Hnodir Hcopy. rewrite Hex.
    destruct (lstat tfs resolvedPath) as [[c|es|t]|] eqn:E.
    + rewrite Hcopy. reflexivity.
    + exfalso. apply (Hnodir es). reflexivity.
    + rewrite Hcopy. reflexivity.
    + unfold fs_copy in Hcopy. rewrite E in Hcopy. injection Hcopy as <-.
      reflexivity.
Qed.

Lemma X4_link_never_rejects_witness :
  scaffold_item sample_templateDir linked_template
    (instantScaffold sample_templateDir linked_template 5)
    sample_templateDir ["home"; "u"; "demo"] "shared" obstructed_home
  = Done obstructed_home.
Proof.
  apply (proj1 (proj2 (X4_link_never_rejects sample_templateDir linked_template
           (instantScaffold sample_templateDir linked_template 5)
           sample_templateDir ["home"; "u"; "demo"] "shared" "packages/ui"
           obstructed_home
           ltac:(vm_compute; reflexivity) ltac:(vm_compute; reflexivity))));
    [vm_compute; reflexivity| |vm_compute; reflexivity].
  vm_compute. eexists. reflexivity.
Defined.

(* ------------------------------------------------------------------ *)
(** ** The configurator, beyond the three fields *)

(** X5: the mutation of the manifest keeps every other field as it was:
    whatever is not [name] or [packageManager], and [workspaces] too unless
    the package manager is yarn. *)
Theorem X5_other_fields_kept (packageManager projectName : string)
    (m : list (string * json)) :
  exists m',
    mutate_manifest packageManager projectName (JObj m) = Some (JObj m') /\
    forall k,
      k <> "name" -> k <> "packageManager" ->
      (k = "workspaces" -> packageManager <> "yarn") ->
      entry_get k m' = entry_get k m.
Proof.
  unfold mutate_manifest. simpl.
  destruct (String.eqb packageManager "npm") eqn:Enpm;
    [|destruct (String.eqb packageManager "yarn") eqn:Eyarn]; simpl;
    eexists; (split; [reflexivity|]); intros k Hname Hpm Hws.
  - rewrite entry_get_remove_neq, entry_get_set_neq by congruence. reflexivity.
  - apply String.eqb_eq in Eyarn.
    assert (k <> "workspaces") by (intros ->; apply Hws; auto).
    rewrite !entry_get_set_neq by congruence. reflexivity.
  - rewrite !entry_get_set_neq by congruence. reflexivity.
Qed.

Lemma put_frame (p q : path) (n d : node) :
  diverge p q = true -> get q (put p n d) = get q d.
Proof.
  revert q d. induction p as [|a p IH]; intros q d; [discriminate|].
  destruct q as [|b q]; [discriminate|]. simpl.
  destruct d as [c|es|t]; try reflexivity.
  destruct (entry_get a es) as [child|] eqn:E; [|reflexivity].
  destruct (String.eqb a b) eqn:Eab; intros Hq; simpl.
  - apply String.eqb_eq in Eab. subst b.
    rewrite entry_get_set_eq, E. apply (IH _ _ Hq).
  - apply String.eqb_neq in Eab.
    rewrite entry_get_set_neq by exact Eab. reflexivity.
Qed.



Section ConfiguredShape.
Variables (env : faults) (targetDir : path) (d : node) (es : list (string * node)).
Variables (packageManager projectName : string).
Hypothesis Hplain : forallb plain targetDir = true.
Hypothesis Hget : get targetDir d = Some (Dir es).
Hypothesis Hnl : forall t, entry_get "package.json" es <> Some (Symlink t).

(** A run of the configurator rewrites the project directory's entries, and
    of them only the manifest and the workspace file. *)
Lemma configure_shape (d' : node) :
  leaves (configurePackageManager env targetDir packageManager projectName d) d' ->
  exists es',
    d' = put targetDir (Dir es') d /\
    (forall k, k <> "package.json" -> k <> "pnpm-workspace.yaml" ->
               entry_get k es' = entry_get k es) /\
    (entry_get "package.json" es = None -> entry_get "package.json" es' = None).
Proof.
  unfold leaves, configurePackageManager.
  rewrite (manifest_step targetDir d es Hplain Hget env
             packageManager projectName Hnl).
  assert (Hstay : forall o,
             o = Done d' \/ o = Threw d' -> (o = Done d \/ o = Threw d) ->
             exists es',
               d' = put targetDir (Dir es') d /\
               (forall k, k <> "package.json" -> k <> "pnpm-workspace.yaml" ->
                          entry_get k es' = entry_get k es) /\
               (entry_get "package.json" es = None ->
                entry_get "package.json" es' = None)).
  { intros o H1 H2. exists es.
    assert (d' = d) by (destruct H1, H2; congruence). subst d'.
    rewrite (put_same _ _ _ Hget). auto. }
  assert (Hwork : forall d1 es1,
             d1 = put targetDir (Dir es1) d ->
             (forall k, k <> "package.json" -> k <> "pnpm-workspace.yaml" ->
                        entry_get k es1 = entry_get k es) ->
             (entry_get "package.json" es = None ->
              entry_get "package.json" es1 = None) ->
             leaves (configure_workspace env targetDir packageManager d1) d' ->
             exists es',
               d' = put targetDir (Dir es') d /\
               (forall k, k <> "package.json" -> k <> "pnpm-workspace.yaml" ->
                          entry_get k es' = entry_get k es) /\
               (entry_get "package.json" es = None ->
                entry_get "package.json" es' = None)).
  { intros d1 es1 -> Hothers Hpkg Hrun.
    rewrite (workspace_step targetDir _ es1 (get_put _ _ _ _ Hget)) in Hrun.
    assert (Hsame : leaves (Done (put targetDir (Dir es1) d)) d' \/
                    leaves (Threw (put targetDir (Dir es1) d)) d' ->
                    d' = put targetDir (Dir es1) d).
    { intros [[H|H]|[H|H]]; congruence. }
    destruct (remove_partly_entry targetDir "pnpm-workspace.yaml"
                (remove_partial env) es1 _ (get_put _ _ _ _ Hget))
      as (es2 & Hpartly & Hes2).
    rewrite put_put in Hpartly.
    destruct (String.eqb packageManager "npm" || String.eqb packageManager "yarn");
      [destruct (pathExists _ _); [destruct (remove_fails env)|]|];
      try solve [exists es1; split; [apply Hsame; auto|auto]].
    - exists es2.
      destruct Hrun as [Hrun|Hrun]; [discriminate|]. injection Hrun as <-.
      split; [exact Hpartly|]. split.
      + intros k Hk1 Hk2. rewrite (Hes2 k Hk2). auto.
      + intros Hnone. rewrite Hes2 by discriminate. auto.
    - exists (entry_remove "pnpm-workspace.yaml" es1).
      destruct Hrun as [Hrun|Hrun]; [|discriminate]. injection Hrun as <-.
      rewrite put_put. split; [reflexivity|]. split.
      + intros k Hk1 Hk2. rewrite entry_get_remove_neq by congruence. auto.
      + intros Hnone. rewrite entry_get_remove_neq by discriminate. auto. }
  destruct (entry_get "package.json" es) as [[[bytes|M]|es0|t]|] eqn:E.
  - intros H. apply (Hstay _ H). auto.
  - destruct (readJson_fails env); [intros H; apply (Hstay _ H); auto|].
    destruct (mutate_manifest packageManager projectName M) as [M'|];
      [|intros H; apply (Hstay _ H); auto].
    destruct (writeJson_fails env).
    + destruct (torn (writeJson_torn env) M') as [c|];
        [|intros H; apply (Hstay _ H); auto].
      intros [H|H]; [discriminate|]. injection H as <-.
      eexists. split; [reflexivity|]. split; [|discriminate].
      intros k Hk _. rewrite entry_get_set_neq by congruence. reflexivity.
    + apply (Hwork _ _ eq_refl).
      * intros k Hk _. rewrite entry_get_set_neq by congruence. reflexivity.
      * discriminate.
  - intros H. apply (Hstay _ H). auto.
  - exfalso. apply (Hnl t). reflexivity.
  - apply (Hwork d es); auto. rewrite (put_same _ _ _ Hget). reflexivity.
Qed.
End ConfiguredShape.

(** X6: however a run of the configurator ends, faults included, it has
    changed nothing but the manifest and [pnpm-workspace.yaml]: every other
    entry of the project directory and everything beside the project
    directory is as before, and where there was no manifest there is none
    afterwards. *)
Theorem X6_configurator_confined (env : faults) (targetDir : path)
    (packageManager projectName : string) (d d' : node)
    (es : list (string * node)) :
  forallb plain targetDir = true ->
  get targetDir d = Some (Dir es) ->
  (forall t, entry_get "package.json" es <> Some (Symlink t)) ->
  leaves (configurePackageManager env targetDir packageManager projectName d) d' ->
  exists es',
    get targetDir d' = Some (Dir es') /\
    (forall k, k <> "package.json" -> k <> "pnpm-workspace.yaml" ->
               entry_get k es' = entry_get k es) /\
    (entry_get "package.json" es = None -> entry_get "package.json" es' = None) /\
    (forall q, diverge targetDir q = true -> get q d' = get q d).
Proof.
  intros Hplain Hget Hnl Hrun.
  destruct (configure_shape env targetDir d es packageManager projectName
              Hplain Hget Hnl d' Hrun) as (es' & -> & Hothers & Hpkg).
  exists es'. split; [apply (get_put _ _ _ _ Hget)|].
  split; [exact Hothers|]. split; [exact Hpkg|].
  intros q Hq. apply put_frame. exact Hq.
Qed.

Lemma X6_configurator_confined_witness :
  exists es',
    get ["home"; "u"; "my-app"]
        (put ["home"; "u"; "my-app"]
             (Dir [("notes.txt", File (Text "mine"))]) sample_home)
    = Some (Dir es') /\
    (forall k, k <> "package.json" -> k <> "pnpm-workspace.yaml" ->
               entry_get k es'
               = entry_get k [("notes.txt", File (Text "mine"))]) /\
    (entry_get "package.json" [("notes.txt", File (Text "mine"))] = None ->
     entry_get "package.json" es' = None) /\
    (forall q, diverge ["home"; "u"; "my-app"] q = true ->
               get q (put ["home"; "u"; "my-app"]
                          (Dir [("notes.txt", File (Text "mine"))]) sample_home)
               = get q sample_home).
Proof.
  apply (X6_configurator_confined no_faults ["home"; "u"; "my-app"]
           "yarn" "shop" sample_home _ [("notes.txt", File (Text "mine"))]);
    try reflexivity.
  - intros t. discriminate.
  - left. vm_compute. reflexivity.
Defined.

(** X7: a manifest that parses to [null], a boolean, a number or a string
    makes the configurator reject with the store as it was, the workspace
    step not run; a manifest that parses to an array is written back as it
    is, without a name, and the run ends normally. *)
Theorem X7_manifest_not_an_object (env : faults) (targetDir : path)
    (packageManager projectName : string) (d : node)
    (es : list (string * node)) (value : json) :
  forallb plain targetDir = true ->
  get targetDir d = Some (Dir es) ->
  entry_get "package.json" es = Some (File (JsonText value)) ->
  ((forall fields, value <> JObj fields) ->
   (forall items, value <> JArr items) ->
   configurePackageManager env targetDir packageManager projectName d
   = Threw d) /\
  (forall items,
      value = JArr items ->
      exists d' es',
        configurePackageManager no_faults targetDir packageManager projectName d
        = Done d' /\
        get targetDir d' = Some (Dir es') /\
        entry_get "package.json" es' = Some (File (JsonText (JArr items)))).
Proof.
  intros Hplain Hget E. split.
  - intros Hobj Harr. unfold configurePackageManager.
    rewrite (manifest_step targetDir d es Hplain Hget env)
      by (intros t; rewrite E; discriminate).
    rewrite E.
    destruct (readJson_fails env); [reflexivity|].
    destruct value as [| | | |items|fields]; try reflexivity.
    + exfalso. apply (Harr items). reflexivity.
    + exfalso. apply (Hobj fields). reflexivity.
  - intros items ->.
    assert (Hmut : mutate_manifest packageManager projectName (JArr items)
                   = Some (JArr items)).
    { unfold mutate_manifest. simpl.
      destruct (String.eqb packageManager "npm");
        [|destruct (String.eqb packageManager "yarn")]; reflexivity. }
    destruct (configure_run targetDir d es packageManager projectName
                Hplain Hget _ _ E Hmut) as (es' & Hrun & Hget' & Hpkg & _).
    exists (put targetDir (Dir es') d), es'. auto.
Qed.

Lemma X7_manifest_not_an_object_witness :
  configurePackageManager no_faults ["home"; "u"; "demo"] "npm" "demo"
    null_manifest_project
  = Threw null_manifest_project.
Proof.
  apply (proj1 (X7_manifest_not_an_object no_faults ["home"; "u"; "demo"]
           "npm" "demo" null_manifest_project null_manifest_entries JNull
           eq_refl eq_refl eq_refl)); discriminate.
Defined.

(* ------------------------------------------------------------------ *)
(** ** The prompt for the project name *)

Lemma name_chars_no_slash (s : string) :
  all_chars is_name_char s = true -> includes s "/" = false.
Proof.
  induction s as [|c s IH]; simpl; [reflexivity|].
  intros H. apply andb_true_iff in H. destruct H as [Hc Hs].
  rewrite (IH Hs), orb_false_r.
  destruct (Ascii.eqb c "/") eqn:E; [|reflexivity].
  apply Ascii.eqb_eq in E. subst c. discriminate.
Qed.

(** X8: a name the prompt accepts is, once trimmed, a single path segment
    of letters, digits, hyphens and underscores: it is not empty, it is not
    [.] or [..], it holds no separator, and the target directory of the
    interactive run is the entry of that name in the working directory. *)
Theorem X8_accepted_name (input : string) (dir : path)
    (answer : string) :
  validate input = Accepted ->
  all_chars is_name_char (trim input) = true /\
  plain (trim input) = true /\
  chosen_projectName
    {| args := []; cwd := dir; answer_projectName := input;
       answer_packageManager := answer |} = trim input /\
  path_join dir (trim input) = dir ++ [trim input].
Proof.
  unfold validate, name_regex_test. intros H.
  destruct (String.eqb (trim input) EmptyString) eqn:Eempty; [discriminate|].
  cbn [negb andb] in H.
  destruct (all_chars is_name_char (trim input)) eqn:Echars; [|discriminate].
  assert (Hplain : plain (trim input) = true).
  { unfold plain. rewrite Eempty, (name_chars_no_slash _ Echars). simpl.
    destruct (String.eqb (trim input) ".") eqn:E1.
    - apply String.eqb_eq in E1. rewrite E1 in Echars. discriminate.
    - destruct (String.eqb (trim input) "..") eqn:E2; [|reflexivity].
      apply String.eqb_eq in E2. rewrite E2 in Echars. discriminate. }
  split; [reflexivity|]. split; [exact Hplain|]. split; [reflexivity|].
  apply path_join_plain. exact Hplain.
Qed.

Lemma X8_accepted_name_witness :
  all_chars is_name_char (trim "  my_shop-2 ") = true /\
  plain (trim "  my_shop-2 ") = true /\
  chosen_projectName
    {| args := []; cwd := ["home"; "u"]; answer_projectName := "  my_shop-2 ";
       answer_packageManager := "pnpm" |} = trim "  my_shop-2 " /\
  path_join ["home"; "u"] (trim "  my_shop-2 ")
  = ["home"; "u"] ++ [trim "  my_shop-2 "].
Proof.
  apply (X8_accepted_name "  my_shop-2 " ["home"; "u"] "pnpm"). reflexivity.
Defined.

(* ------------------------------------------------------------------ *)
(** ** No ignored name in the destination *)





Section MirrorNames.
Variables (templateDir : path) (tfs : node).
Hypothesis Hwf : well_formed tfs = true.


End MirrorNames.



(* ------------------------------------------------------------------ *)
(** ** A template that is a real directory *)

Section RealDirectory.
Variables (root : node) (dir : path) (es : list (string * node)).
Hypothesis Hdir : forallb plain dir = true.
Hypothesis Hget : get dir root = Some (Dir es).

Lemma walk_real_directory (follow : bool) :
  walk MAXSYMLINKS root follow [] dir = Some (dir, Dir es).
Proof.
  rewrite <- (app_nil_r dir) at 1.
  rewrite (walk_prefix _ _ _ dir [] [] es Hdir Hget), walk_nil. simpl.
  rewrite Hget. reflexivity.
Qed.

Lemma readdir_real_directory : readdir root dir = Some (map fst es).
Proof. unfold readdir, stat. rewrite walk_real_directory. reflexivity. Qed.

Lemma lstat_entry (name : string) :
  plain name = true -> lstat root (dir ++ [name]) = entry_get name es.
Proof.
  intros Hname. unfold lstat.
  rewrite (walk_entry _ _ _ _ _ _ Hdir Hname Hget).
  destruct (entry_get name es) as [[c|es'|t]|]; reflexivity.
Qed.

Lemma entry_get_in (name : string) (n : node) :
  entry_get name es = Some n -> In name (map fst es).
Proof.
  intros H. destruct (in_dec string_dec name (map fst es)) as [Hin|Hnotin];
    [exact Hin|].
  apply entry_get_names in Hnotin. congruence.
Qed.
End RealDirectory.

Lemma mirror_item_names (templateDir : path) (tfs : node)
    (sub : path -> option (list (string * node))) (src : path)
    (item : string) (e : list (string * node)) :
  mirror_item templateDir tfs sub src item = Some e ->
  forall k, k <> item -> entry_get k e = None.
Proof.
  unfold mirror_item. intros H k Hk.
  assert (Hone : forall (n : node), entry_get k [(item, n)] = None).
  { intros n. simpl. apply not_eq_sym, String.eqb_neq in Hk.
    rewrite Hk. reflexivity. }
  assert (Hsub : forall p,
             option_map (fun es => [(item, Dir es)]) (sub p) = Some e ->
             entry_get k e = None).
  { intros p. destruct (sub p); [|discriminate]. intros [= <-]. apply Hone. }
  destruct (shouldIgnore _ _); [injection H as <-; reflexivity|].
  destruct (lstat tfs (path_join src item)) as [[c|es0|t]|]; try discriminate.
  - injection H as <-. apply Hone.
  - exact (Hsub _ H).
  - destruct (stat tfs (path_resolve src t)) as [[c|es0|t']|].
    + injection H as <-. apply Hone.
    + exact (Hsub _ H).
    + injection H as <-. reflexivity.
    + injection H as <-. reflexivity.
Qed.

Lemma mirror_items_entry (one : string -> option (list (string * node)))
    (item : string) (n : node) (items : list string) :
  (forall i e, one i = Some e -> forall k, k <> i -> entry_get k e = None) ->
  one item = Some [(item, n)] ->
  forall es,
    distinct items = true -> In item items ->
    mirror_items one items = Some es -> entry_get item es = Some n.
Proof.
  intros Hnames Hone. induction items as [|i items IH]; intros es Hd Hin;
    [contradiction|].
  cbn [mirror_items].
  destruct (one i) as [e|] eqn:E; [|discriminate].
  destruct (mirror_items one items) as [es'|] eqn:Erest; [|discriminate].
  intros [= <-]. rewrite entry_get_app.
  destruct (distinct_cons _ _ Hd) as [Hnotin Hd'].
  destruct (string_dec i item) as [->|Hne].
  - rewrite Hone in E. injection E as <-. simpl.
    rewrite String.eqb_refl. reflexivity.
  - rewrite (Hnames _ _ E item (not_eq_sym Hne)).
    destruct Hin as [Hin|Hin]; [contradiction|].
    apply (IH es' Hd' Hin eq_refl).
Qed.

(** A regular file at the top of the template that the filter keeps is in
    the mirror, as it is. *)
Lemma mirror_top_file (templateDir : path) (tfs : node) (fuel : nat)
    (tes es : list (string * node)) (name : string) (c : content) :
  well_formed tfs = true ->
  forallb plain templateDir = true ->
  get templateDir tfs = Some (Dir tes) ->
  plain name = true ->
  entry_get name tes = Some (File c) ->
  shouldIgnore (templateDir ++ [name]) name = false ->
  mirror templateDir tfs fuel templateDir = Some es ->
  entry_get name es = Some (File c).
Proof.
  intros Hwf Hplain Hget Hname E Hkept.
  destruct fuel as [|fuel]; [discriminate|]. cbn [mirror].
  pose proof (readdir_real_directory tfs templateDir tes Hplain Hget) as Hdir.
  rewrite Hdir.
  destruct (readdir_names _ _ _ Hwf Hdir) as [_ Hdistinct].
  apply (mirror_items_entry _ name (File c)).
  - intros i e. apply mirror_item_names.
  - unfold mirror_item.
    rewrite (path_join_plain templateDir name Hname).
    rewrite (path_relative_below templateDir [name]).
    change (join "/" [name]) with name. rewrite Hkept.
    rewrite (lstat_entry tfs templateDir tes Hplain Hget name Hname), E.
    reflexivity.
  - exact Hdistinct.
  - exact (entry_get_in tes name _ E).
Qed.

(* ------------------------------------------------------------------ *)
(** ** The steps of [main], composed *)

Lemma npmrc_kept (dir : path) :
  shouldIgnore (dir ++ [".npmrc"]) ".npmrc" = false.
Proof.
  unfold shouldIgnore, shouldIgnoreWith. rewrite basename_snoc. reflexivity.
Qed.


(** [copyNpmrc] on a project that already holds the template's [.npmrc]. *)
Lemma copyNpmrc_settled (templateDir : path) (tfs : node)
    (tes : list (string * node)) (targetDir : path) (d : node)
    (es : list (string * node)) :
  forallb plain templateDir = true ->
  get templateDir tfs = Some (Dir tes) ->
  get targetDir d = Some (Dir es) ->
  entry_get ".npmrc" tes = None \/
  (exists c, entry_get ".npmrc" tes = Some (File c) /\
             entry_get ".npmrc" es = Some (File c)) ->
  copyNpmrc templateDir tfs targetDir d = Done d.
Proof.
  intros Hplain Hget Hgetd Hrc. unfold copyNpmrc.
  rewrite !(path_join_plain _ ".npmrc" eq_refl).
  destruct Hrc as [E|(c & E & Ed)].
  - rewrite (pathExists_absent tfs templateDir ".npmrc" tes
               Hplain eq_refl Hget E). reflexivity.
  - rewrite (pathExists_entry tfs templateDir ".npmrc" tes Hplain eq_refl Hget)
      by (intros t; rewrite E; discriminate).
    rewrite E. unfold fs_copy.
    rewrite (lstat_entry tfs templateDir tes Hplain Hget ".npmrc" eq_refl), E.
    rewrite removelast_last, (ensureDir_exists _ _ _ Hgetd).
    rewrite (modify_snoc _ _ _ _ _ Hgetd), Ed. simpl.
    rewrite (entry_set_same _ _ _ Ed), (put_same _ _ _ Hgetd). reflexivity.
Qed.

(** X10: after the materializer has built the mirror of the template,
    [copyNpmrc] changes nothing when the template's [.npmrc] is a regular
    file or is missing: the materializer has copied it already, since no rule
    ignores it. *)
Theorem X10_npmrc_copied_already (templateDir : path) (tfs : node)
    (fuel : nat) (tes : list (string * node)) (dest : path) (d d1 : node)
    (es : list (string * node)) :
  well_formed tfs = true ->
  forallb plain templateDir = true ->
  get templateDir tfs = Some (Dir tes) ->
  entry_get ".npmrc" tes = None \/
  (exists c, entry_get ".npmrc" tes = Some (File c)) ->
  ensureDir dest d = Some d1 -> get dest d1 = Some (Dir []) ->
  mirror templateDir tfs fuel templateDir = Some es ->
  unchained templateDir tfs fuel templateDir = true ->
  exists d',
    instantScaffold templateDir tfs fuel templateDir dest d = Done d' /\
    get dest d' = Some (Dir es) /\
    (forall c, entry_get ".npmrc" tes = Some (File c) ->
               entry_get ".npmrc" es = Some (File c)) /\
    copyNpmrc templateDir tfs dest d' = Done d'.
Proof.
  intros Hwf Hplain Hget Hrc Hdir Hempty Hmirror Hun.
  exists (put dest (Dir es) d1).
  assert (Hcopied : forall c, entry_get ".npmrc" tes = Some (File c) ->
                              entry_get ".npmrc" es = Some (File c)).
  { intros c E.
    exact (mirror_top_file templateDir tfs fuel tes es ".npmrc" c Hwf Hplain
             Hget eq_refl E (npmrc_kept templateDir) Hmirror). }
  split; [exact (scaffold_exact templateDir tfs Hwf fuel _ dest d d1 es
                   Hdir Hempty Hmirror Hun)|].
  split; [apply (get_put _ _ _ _ Hempty)|].
  split; [exact Hcopied|].
  apply (copyNpmrc_settled templateDir tfs tes dest _ es Hplain Hget
           (get_put _ _ _ _ Hempty)).
  destruct Hrc as [E|(c & E)]; [left; exact E|right].
  exists c. auto.
Qed.

Lemma X10_npmrc_copied_already_witness :
  exists d',
    instantScaffold sample_templateDir npmrc_template 10
      sample_templateDir ["home"; "u"; "demo"] empty_home = Done d' /\
    get ["home"; "u"; "demo"] d' = Some (Dir npmrc_template_entries) /\
    (forall c, entry_get ".npmrc" npmrc_template_entries = Some (File c) ->
               entry_get ".npmrc" npmrc_template_entries = Some (File c)) /\
    copyNpmrc sample_templateDir npmrc_template ["home"; "u"; "demo"] d'
    = Done d'.
Proof.
  apply (X10_npmrc_copied_already sample_templateDir npmrc_template 10
           npmrc_template_entries ["home"; "u"; "demo"] empty_home
           (Dir [("home", Dir [("u", Dir [("demo", Dir [])])])])
           npmrc_template_entries);
    try (vm_compute; reflexivity).
  right. eexists. reflexivity.
Defined.


Section NamedRun.
(** A run [create-fast-turbo <name> ...] in a working directory that is a
    real directory without an entry [<name>], with a template that is a real
    directory and passes validation, and fuel that reaches. *)
Variables (templateDir : path) (tfs : node) (fuel : nat).
Variables (tes es : list (string * node)).
Variables (inv : invocation) (name : string) (rest : list string).
Variables (d : node) (es0 : list (string * node)).
Hypothesis Hwf : well_formed tfs = true.
Hypothesis Hvalid : validateTemplate templateDir tfs = true.
Hypothesis Hmirror : mirror templateDir tfs fuel templateDir = Some es.
Hypothesis Hun : unchained templateDir tfs fuel templateDir = true.
Hypothesis Hargs : args inv = name :: rest.
Hypothesis Hname : plain name = true.
Hypothesis Hhelp : existsb (String.eqb "--help") (args inv) = false.
Hypothesis Hh : existsb (String.eqb "-h") (args inv) = false.
Hypothesis Hcwd : forallb plain (cwd inv) = true.
Hypothesis Hgetcwd : get (cwd inv) d = Some (Dir es0).
Hypothesis Hfresh : entry_get name es0 = None.




End NamedRun.





(* ------------------------------------------------------------------ *)
(** ** The choice of the package manager *)

Lemma find_first {A : Type} (f : A -> bool) (before after : list A) (x : A) :
  (forall a, In a before -> f a = false) -> f x = true ->
  find f (before ++ x :: after) = Some x.
Proof.
  intros Hbefore Hx. induction before as [|b before IH]; simpl.
  - rewrite Hx. reflexivity.
  - rewrite (Hbefore b (or_introl eq_refl)).
    apply IH. intros a Ha. apply Hbefore. right. exact Ha.
Qed.

Lemma find_nothing {A : Type} (f : A -> bool) (l : list A) :
  (forall a, In a l -> f a = false) -> find f l = None.
Proof.
  induction l as [|b l IH]; intros H; simpl; [reflexivity|].
  rewrite (H b (or_introl eq_refl)). apply IH.
  intros a Ha. apply H. right. exact Ha.
Qed.

(** X13: the package manager is the prompt's answer only when no argument
    selects one; otherwise the first selecting argument decides, whatever
    comes after it and whatever the answer: [--npm], [--pnpm] and [--yarn]
    give [npm], [pnpm] and [yarn]. *)
Theorem X13_first_flag_decides (inv : invocation) :
  ((forall a, In a (args inv) -> is_packageManagerArg a = false) ->
   chosen_packageManager inv = answer_packageManager inv) /\
  (forall before flag after,
      args inv = before ++ flag :: after ->
      (forall a, In a before -> is_packageManagerArg a = false) ->
      (flag = "--npm" -> chosen_packageManager inv = "npm") /\
      (flag = "--pnpm" -> chosen_packageManager inv = "pnpm") /\
      (flag = "--yarn" -> chosen_packageManager inv = "yarn")).
Proof.
  split.
  - intros H. unfold chosen_packageManager. rewrite (find_nothing _ _ H).
    reflexivity.
  - intros before flag after Hargs Hbefore. unfold chosen_packageManager.
    rewrite Hargs.
    split; [|split]; intros ->.
    + rewrite (find_first is_packageManagerArg before after "--npm"
                 Hbefore eq_refl). reflexivity.
    + rewrite (find_first is_packageManagerArg before after "--pnpm"
                 Hbefore eq_refl). reflexivity.
    + rewrite (find_first is_packageManagerArg before after "--yarn"
                 Hbefore eq_refl). reflexivity.
Qed.

Lemma X13_first_flag_decides_witness :
  chosen_packageManager
    {| args := ["shop"; "--npm"; "--yarn"]; cwd := ["home"; "u"];
       answer_projectName := EmptyString; answer_packageManager := "pnpm" |}
  = "npm".
Proof.
  apply (proj2 (X13_first_flag_decides
                  {| args := ["shop"; "--npm"; "--yarn"]; cwd := ["home"; "u"];
                     answer_projectName := EmptyString;
                     answer_packageManager := "pnpm" |})
               ["shop"] "--npm" ["--yarn"] eq_refl).
  - intros a [<-|[]]. reflexivity.
  - reflexivity.
Defined.

(* ------------------------------------------------------------------ *)
(** ** What validation of the template guarantees *)

Lemma get_snoc_inv (p : path) (name : string) (d n : node) :
  get (p ++ [name]) d = Some n ->
  exists es, get p d = Some (Dir es) /\ entry_get name es = Some n.
Proof.
  rewrite get_app. destruct (get p d) as [[c|es|t]|]; simpl; try discriminate.
  destruct (entry_get name es) as [child|] eqn:E; [|discriminate].
  intros [= <-]. eauto.
Qed.

Lemma walk_parent_directory (hops : nat) (root : node) (seg : string) :
  plain seg = true ->
  forall (pre : list string) (cur : path) (found : path * node),
    walk hops root true cur (pre ++ [seg]) = Some found ->
    exists real es,
      walk hops root true cur pre = Some (real, Dir es) /\
      entry_get seg es <> None.
Proof.
  intros Hseg. induction hops as [|hops IHhops];
    induction pre as [|s pre IH]; intros cur found; cbn [app].
  - rewrite (walk_cons _ _ _ _ _ _ Hseg), !walk_nil.
    destruct (get (cur ++ [seg]) root) as [n|] eqn:E;
      [|discriminate].
    destruct (get_snoc_inv _ _ _ _ E) as (es & Hcur & Hentry).
    intros _. exists cur, es. rewrite Hcur, Hentry. split; [reflexivity|discriminate].
  - rewrite !walk_step.
    destruct (String.eqb s EmptyString || String.eqb s "."); [apply IH|].
    destruct (String.eqb s ".."); [apply IH|].
    destruct (get (cur ++ [s]) root) as [[c|es|t]|]; try discriminate.
    + destruct pre; discriminate.
    + apply IH.
    + destruct pre; discriminate.
  - rewrite (walk_cons _ _ _ _ _ _ Hseg), !walk_nil.
    destruct (get (cur ++ [seg]) root) as [n|] eqn:E;
      [|discriminate].
    destruct (get_snoc_inv _ _ _ _ E) as (es & Hcur & Hentry).
    intros _. exists cur, es. rewrite Hcur, Hentry. split; [reflexivity|discriminate].
  - rewrite !walk_step.
    destruct (String.eqb s EmptyString || String.eqb s "."); [apply IH|].
    destruct (String.eqb s ".."); [apply IH|].
    destruct (get (cur ++ [s]) root) as [[c|es|t]|]; try discriminate.
    + destruct pre; discriminate.
    + apply IH.
    + intros H.
      assert (H' : walk hops root true (if startsWith t "/" then [] else cur)
                        ((split "/" t ++ pre) ++ [seg]) = Some found)
        by (rewrite <- app_assoc; destruct pre; exact H).
      destruct (IHhops _ _ _ H') as (real & es & Hwalk & Hentry).
      exists real, es. split; [|exact Hentry].
      destruct pre; exact Hwalk.
Qed.

(** X14: a template that passes [validateTemplate] has a root that is a
    directory, through whatever links, and its listing holds [apps] and
    [packages]: the listing the materializer starts with cannot fail. *)
Theorem X14_validated_template_lists (templateDir : path) (tfs : node) :
  validateTemplate templateDir tfs = true ->
  exists items,
    readdir tfs templateDir = Some items /\
    In "apps" items /\ In "packages" items.
Proof.
  unfold validateTemplate. simpl. rewrite !andb_true_iff.
  intros (_ & Happs & Hpackages & _).
  assert (Hlisted : forall name,
             plain name = true ->
             pathExists tfs (path_join templateDir name) = true ->
             exists es, walk MAXSYMLINKS tfs true [] templateDir
                        = Some (fst es, Dir (snd es)) /\
                        In name (map fst (snd es))).
  { intros name Hname. rewrite (path_join_plain _ _ Hname).
    unfold pathExists, stat.
    destruct (walk MAXSYMLINKS tfs true [] (templateDir ++ [name]))
      as [found|] eqn:E; [|discriminate].
    intros _.
    destruct (walk_parent_directory _ _ _ Hname _ _ _ E)
      as (real & es & Hwalk & Hentry).
    exists (real, es). split; [exact Hwalk|]. simpl.
    destruct (in_dec string_dec name (map fst es)) as [Hin|Hnotin];
      [exact Hin|].
    apply entry_get_names in Hnotin. contradiction. }
  destruct (Hlisted "apps" eq_refl Happs) as ([real es] & Hwalk & Hin1).
  destruct (Hlisted "packages" eq_refl Hpackages) as ([real' es'] & Hwalk' & Hin2).
  simpl in *. rewrite Hwalk in Hwalk'. injection Hwalk' as <- <-.
  exists (map fst es). unfold readdir, stat. rewrite Hwalk. auto.
Qed.

Lemma X14_validated_template_lists_witness :
  exists items,
    readdir sample_template sample_templateDir = Some items /\
    In "apps" items /\ In "packages" items.
Proof.
  apply (X14_validated_template_lists sample_templateDir sample_template).
  vm_compute. reflexivity.
Defined.

(* ------------------------------------------------------------------ *)
(** ** The background installation *)


